(** * User behaviour tracker: a shallow embedding of [user_behavior_tracker.py]

    The development models the in-memory part of [UserBehaviorTracker]:
    the interaction log, the per-user profiles, the off-track counters,
    the style heuristic, the prompt personaliser, the feedback learner
    and the reliability report.

    Modelling conventions.
    - Python [str] is [string]; [str.lower] acts on the letters [A]..[Z].
    - Python [int] is [Z].
    - A satisfaction score (Python [float]) is a binary64 floating-point
      number, Rocq's primitive [float]: sums, quotients and comparisons of
      scores round, overflow and treat NaN as Python's do.  An [int] that
      meets a score ([len(...)], the literals 0, 3 and 4) is converted to
      the float of the same value first.
    - The off-track rate, a quotient of two [int]s, is kept as the exact
      ratio [Qc] that Python rounds once to the nearest float.
    - [datetime.now()] is an argument [now : Z] of every operation that reads
      the clock, counted in microseconds; one call sees one reading of the
      clock.  An ISO timestamp string is the number it encodes
      ([fromisoformat (isoformat d) = d]).
    - A method of the tracker is a function from the tracker to the new
      tracker (and the returned value).
    - The module-level [supabase] client is an argument [sb : option Supabase];
      [None] is the unconfigured client. *)

From Stdlib Require Import String Ascii List ZArith QArith Qcanon Lia.
From Stdlib Require Import PrimFloat FloatOps SpecFloat.
From Stdlib Require Uint63.
From stdpp Require Import base option strings gmap numbers list.

Local Open Scope string_scope.
Local Open Scope Z_scope.

(** ** Text *)

Module Text.

(** [c.lower()] for one character. *)
Definition lower_char (c : ascii) : ascii :=
  let n := nat_of_ascii c in
  if ((65 <=? n)%nat && (n <=? 90)%nat)%bool then ascii_of_nat (n + 32) else c.

(** [s.lower()] *)
Fixpoint lower (s : string) : string :=
  match s with
  | EmptyString => EmptyString
  | String c s' => String (lower_char c) (lower s')
  end.

(** [s.startswith(p)] *)
Fixpoint startswith (p s : string) : bool :=
  match p, s with
  | EmptyString, _ => true
  | String _ _, EmptyString => false
  | String a p', String b s' => if Ascii.eqb a b then startswith p' s' else false
  end.

(** [needle in hay] on strings: some suffix of [hay] starts with [needle]. *)
Fixpoint str_in (needle hay : string) : bool :=
  startswith needle hay ||
  match hay with
  | EmptyString => false
  | String _ hay' => str_in needle hay'
  end.

(** [any(ind in text for ind in inds)] *)
Definition any_in (inds : list string) (text : string) : bool :=
  existsb (fun ind => str_in ind text) inds.

(** [sep.join(parts)] *)
Fixpoint join (sep : string) (parts : list string) : string :=
  match parts with
  | [] => ""
  | [p] => p
  | p :: rest => p ++ sep ++ join sep rest
  end.

(** The line feed, Python's ["\n"]. *)
Definition nl : string := String (ascii_of_nat 10) "".

(** The substring relation the membership test decides. *)
Definition substring_of (needle hay : string) : Prop :=
  ∃ pre post : string, hay = pre ++ needle ++ post.

(** Substring containment that ignores the case of letters. *)
Definition ci_substring_of (needle hay : string) : Prop :=
  substring_of (lower needle) (lower hay).

End Text.

(** ** Properties of the text primitives *)

Module TextFacts.
Import Text.

Lemma startswith_spec p s :
  startswith p s = true ↔ ∃ post, s = p ++ post.
Proof.
  revert s. induction p as [|a p IH]; intros s; simpl.
  - split; [intros _; by exists s | done].
  - destruct s as [|b s].
    + split; [done | intros [post Hpost]; discriminate].
    + destruct (Ascii.eqb_spec a b) as [->|Hne].
      * rewrite IH. split; intros [post Hpost]; exists post; [by subst | by injection Hpost].
      * split; [done | intros [post Hpost]; injection Hpost; congruence].
Qed.

Lemma str_in_spec needle hay :
  str_in needle hay = true ↔ substring_of needle hay.
Proof.
  unfold substring_of. induction hay as [|c hay IH]; simpl.
  - rewrite orb_false_r, startswith_spec. split.
    + intros [post Hpost]. by exists "", post.
    + intros [pre [post Hpost]]. destruct pre; [by exists post | discriminate].
  - rewrite orb_true_iff, startswith_spec, IH. split.
    + intros [[post Hpost] | [pre [post Hpost]]].
      * by exists "", post.
      * exists (String c pre), post. simpl. by rewrite Hpost.
    + intros [pre [post Hpost]]. destruct pre as [|c' pre]; simpl in Hpost.
      * left. by exists post.
      * right. exists pre, post. by injection Hpost.
Qed.

Lemma str_in_false needle hay :
  str_in needle hay = false ↔ ¬ substring_of needle hay.
Proof. rewrite <- str_in_spec. by destruct (str_in needle hay). Qed.

Global Instance substring_of_dec needle hay : Decision (substring_of needle hay).
Proof.
  refine (cast_if (decide (str_in needle hay = true))); by rewrite <- str_in_spec.
Defined.

Lemma any_in_spec inds text :
  any_in inds text = true ↔ Exists (fun ind => substring_of ind text) inds.
Proof.
  unfold any_in. rewrite existsb_exists, List.Exists_exists.
  split; intros [ind [Hin Hsub]]; exists ind; split; try done; by apply str_in_spec.
Qed.

(** Nothing but the empty string is a substring of the empty string. *)
Lemma substring_of_empty needle : substring_of needle "" → needle = "".
Proof.
  intros [pre [post H]]. destruct pre; [|discriminate].
  destruct needle; [done | discriminate].
Qed.

Lemma lower_empty s : lower s = "" → s = "".
Proof. by destruct s. Qed.



End TextFacts.

(** ** Results of operations that can raise *)

Inductive exn := ZeroDivisionError.

Inductive result (A : Type) :=
| Return (a : A)
| Raise (e : exn).
Arguments Return {A} a.
Arguments Raise {A} e.

Global Instance result_ret : MRet result := λ A a, Return a.

Global Instance result_bind : MBind result := λ A B k r,
  match r with
  | Return a => k a
  | Raise e => Raise e
  end.

(** ** Numbers *)

(** [sum(xs)] over scores: Python adds from the left, starting at [0]. *)
Definition sum_scores (xs : list float) : float := foldl PrimFloat.add 0%float xs.

(** [float(n)] for an [int] that is a length (below [2^63]). *)
Definition float_of_int (n : Z) : float := PrimFloat.of_uint63 (Uint63.of_Z n).

(** [sum(1 for x in xs if f x)] *)
Definition count_where {A} (f : A → bool) (xs : list A) : Z :=
  foldl (fun acc x => if f x then acc + 1 else acc) 0 xs.

(** [x / n] with [n] an [int]: true division, raising on [n = 0]. *)
Definition truediv (x : float) (n : Z) : result float :=
  if decide (n = 0) then Raise ZeroDivisionError
  else Return (x / float_of_int n)%float.

(** [len(xs)] *)
Definition len {A} (xs : list A) : Z := Z.of_nat (length xs).

(** [xs[-k:]] for [k > 0]: the last [k] elements, or all of [xs]. *)
Definition last_n {A} (k : nat) (xs : list A) : list A :=
  drop (length xs - k)%nat xs.

(** ** Data model *)

Record UserInteraction := {
  user_id : string;
  interaction_type : string;
  agent_name : string;
  input_text : string;
  output_text : string;
  timestamp : Z;
  satisfaction_score : option float;
  feedback : option string;
  metadata : list (string * string)
}.

Module UserProfile.
Record t := {
  user_id : string;
  interaction_count : Z;
  preferred_response_style : string;
  common_questions : list string;
  satisfaction_history : list float;
  last_interaction : option Z;
  preferences : gmap string string
}.

(** [UserProfile(user_id=u)] after [__post_init__]. *)
Definition new (u : string) : t := {|
  user_id := u;
  interaction_count := 0;
  preferred_response_style := "balanced";
  common_questions := [];
  satisfaction_history := [];
  last_interaction := None;
  preferences := ∅
|}.

Definition set_preferences (p : t) (prefs : gmap string string) : t := {|
  user_id := user_id p;
  interaction_count := interaction_count p;
  preferred_response_style := preferred_response_style p;
  common_questions := common_questions p;
  satisfaction_history := satisfaction_history p;
  last_interaction := last_interaction p;
  preferences := prefs
|}.
End UserProfile.

(** What a probe of one Supabase table answers. *)
Inductive probe := ProbeOk | ProbeTableMissing | ProbeOtherError.

Record Supabase := {
  probe_user_interactions : probe;
  probe_user_learning : probe
}.

Record UserBehaviorTracker := {
  interactions : list UserInteraction;
  user_profiles : gmap string UserProfile.t;
  off_track_patterns : gmap string Z;
  supabase_tables_checked : bool;
  has_user_interactions_table : bool;
  has_user_learning_table : bool
}.

(** [UserBehaviorTracker()] *)
Definition init : UserBehaviorTracker := {|
  interactions := [];
  user_profiles := ∅;
  off_track_patterns := ∅;
  supabase_tables_checked := false;
  has_user_interactions_table := false;
  has_user_learning_table := false
|}.

Definition set_interactions (t : UserBehaviorTracker) (l : list UserInteraction) :=
  {| interactions := l;
     user_profiles := user_profiles t;
     off_track_patterns := off_track_patterns t;
     supabase_tables_checked := supabase_tables_checked t;
     has_user_interactions_table := has_user_interactions_table t;
     has_user_learning_table := has_user_learning_table t |}.

Definition set_user_profiles (t : UserBehaviorTracker) (m : gmap string UserProfile.t) :=
  {| interactions := interactions t;
     user_profiles := m;
     off_track_patterns := off_track_patterns t;
     supabase_tables_checked := supabase_tables_checked t;
     has_user_interactions_table := has_user_interactions_table t;
     has_user_learning_table := has_user_learning_table t |}.

Definition set_off_track_patterns (t : UserBehaviorTracker) (m : gmap string Z) :=
  {| interactions := interactions t;
     user_profiles := user_profiles t;
     off_track_patterns := m;
     supabase_tables_checked := supabase_tables_checked t;
     has_user_interactions_table := has_user_interactions_table t;
     has_user_learning_table := has_user_learning_table t |}.

(** ** Supabase table probing *)

(** One [try: ...select('id')... except] block of [_check_supabase_tables]:
    the table counts as present unless the error says it is missing. *)
Definition table_present (p : probe) : bool :=
  match p with
  | ProbeOk => true
  | ProbeTableMissing => false
  | ProbeOtherError => true
  end.

Definition _check_supabase_tables (sb : option Supabase) (t : UserBehaviorTracker)
  : UserBehaviorTracker :=
  match sb with
  | None =>
      {| interactions := interactions t;
         user_profiles := user_profiles t;
         off_track_patterns := off_track_patterns t;
         supabase_tables_checked := true;
         has_user_interactions_table := has_user_interactions_table t;
         has_user_learning_table := has_user_learning_table t |}
  | Some c =>
      {| interactions := interactions t;
         user_profiles := user_profiles t;
         off_track_patterns := off_track_patterns t;
         supabase_tables_checked := true;
         has_user_interactions_table := table_present (probe_user_interactions c);
         has_user_learning_table := table_present (probe_user_learning c) |}
  end.

(** The [if supabase:] tail of [record_interaction] and [learn_from_feedback]:
    the tables are probed on first use; the insert that follows is wrapped
    in [try/except] and leaves the tracker alone whatever it answers. *)
Definition mirror (sb : option Supabase) (t : UserBehaviorTracker) : UserBehaviorTracker :=
  match sb with
  | None => t
  | Some _ => if supabase_tables_checked t then t else _check_supabase_tables sb t
  end.

(** ** Operations of the tracker *)

(** [d[k] += 1] on a [defaultdict(int)] *)
Definition incr (k : string) (d : gmap string Z) : gmap string Z :=
  <[k := default 0 (d !! k) + 1]> d.

Definition off_track_indicators : list string :=
  [ "I don't understand";
    "That's not what I asked";
    "Wrong";
    "No, that's not right";
    "You're not helping";
    "This is useless" ].

(** The [for indicator in off_track_indicators] loop of [_detect_off_track]:
    the first indicator found in either text, if any. *)
Fixpoint first_indicator (inds : list string) (input_lower feedback_lower : string)
  : option string :=
  match inds with
  | [] => None
  | indicator :: rest =>
      if Text.str_in (Text.lower indicator) input_lower
         || Text.str_in (Text.lower indicator) feedback_lower
      then Some indicator
      else first_indicator rest input_lower feedback_lower
  end.

Definition _detect_off_track (u : string) (interaction : UserInteraction)
    (t : UserBehaviorTracker) : UserBehaviorTracker * bool :=
  let input_lower := Text.lower (input_text interaction) in
  let feedback_lower := Text.lower (default "" (feedback interaction)) in
  match first_indicator off_track_indicators input_lower feedback_lower with
  | Some _ => (set_off_track_patterns t (incr u (off_track_patterns t)), true)
  | None =>
      match satisfaction_score interaction with
      | Some s =>
          if (s <? 3)%float
          then (set_off_track_patterns t (incr u (off_track_patterns t)), true)
          else (t, false)
      | None => (t, false)
      end
  end.

(** [if user_id not in self.user_profiles: self.user_profiles[user_id] = UserProfile(user_id)] *)
Definition ensure_profile (u : string) (m : gmap string UserProfile.t)
  : gmap string UserProfile.t :=
  match m !! u with
  | Some _ => m
  | None => <[u := UserProfile.new u]> m
  end.

(** The profile stored under [u], as [self.user_profiles[u]] reads it once
    the entry exists. *)
Definition profile_of (u : string) (m : gmap string UserProfile.t) : UserProfile.t :=
  default (UserProfile.new u) (m !! u).

(** The update [record_interaction] makes to the profile it has fetched. *)
Definition note_interaction (p : UserProfile.t) (ts : Z) (score : option float)
  : UserProfile.t :=
  {| UserProfile.user_id := UserProfile.user_id p;
     UserProfile.interaction_count := UserProfile.interaction_count p + 1;
     UserProfile.preferred_response_style := UserProfile.preferred_response_style p;
     UserProfile.common_questions := UserProfile.common_questions p;
     UserProfile.satisfaction_history :=
       match score with
       | Some s => (UserProfile.satisfaction_history p ++ [s])%list
       | None => UserProfile.satisfaction_history p
       end;
     UserProfile.last_interaction := Some ts;
     UserProfile.preferences := UserProfile.preferences p |}.

Definition record_interaction (sb : option Supabase) (now : Z)
    (u kind agent input output : string)
    (score : option float) (fb : option string) (md : option (list (string * string)))
    (t : UserBehaviorTracker) : UserBehaviorTracker :=
  let interaction :=
    {| user_id := u; interaction_type := kind; agent_name := agent;
       input_text := input; output_text := output; timestamp := now;
       satisfaction_score := score; feedback := fb;
       metadata := default [] md |} in
  let t1 := set_interactions t (interactions t ++ [interaction])%list in
  let profiles := ensure_profile u (user_profiles t1) in
  let profile := note_interaction (profile_of u profiles) (timestamp interaction) score in
  let t2 := set_user_profiles t1 (<[u := profile]> profiles) in
  let t3 := fst (_detect_off_track u interaction t2) in
  mirror sb t3.

Definition get_user_profile (u : string) (t : UserBehaviorTracker)
  : UserBehaviorTracker * UserProfile.t :=
  let profiles := ensure_profile u (user_profiles t) in
  (set_user_profiles t profiles, profile_of u profiles).

(** *** Style inference *)

Definition seven_days : Z := 7 * 24 * 3600 * 1000000.

Definition concise_indicators : list string := ["short"; "brief"; "quick"; "summary"].
Definition detailed_indicators : list string := ["more"; "details"; "explain"; "elaborate"].

(** The list comprehension [recent_interactions]. *)
Definition recent_interactions (now : Z) (u : string) (t : UserBehaviorTracker)
  : list UserInteraction :=
  List.filter
    (fun i => bool_decide (user_id i = u) && bool_decide (now - timestamp i < seven_days))
    (interactions t).

Definition analyze_response_style_preference (now : Z) (u : string)
    (t : UserBehaviorTracker) : UserBehaviorTracker * string :=
  let '(t1, profile) := get_user_profile u t in
  if bool_decide (UserProfile.interaction_count profile < 3) then (t1, "balanced")
  else
    let recent := recent_interactions now u t1 in
    let concise_count :=
      count_where (fun i => Text.any_in concise_indicators (Text.lower (input_text i))) recent in
    let detailed_count :=
      count_where (fun i => Text.any_in detailed_indicators (Text.lower (input_text i))) recent in
    if bool_decide (concise_count > detailed_count) then (t1, "concise")
    else if bool_decide (detailed_count > concise_count) then (t1, "detailed")
    else (t1, "balanced").

(** *** Prompt personalisation *)

Definition concise_directive : string :=
  "Be concise and to the point. Avoid unnecessary details.".
Definition detailed_directive : string :=
  "Provide detailed explanations and context.".
Definition off_track_directive : string :=
  "The user seems confused or off-track. Be extra clear, ask clarifying questions if needed, and ensure you're addressing their actual question.".
Definition low_satisfaction_directive : string :=
  "Previous interactions had low satisfaction. Be more helpful, accurate, and empathetic.".

Definition notes_header : string :=
  Text.nl ++ Text.nl ++ "PERSONALIZATION NOTES:" ++ Text.nl.

(** [sum(h[-5:]) / len(h[-5:])]; the caller has checked that [h] is not
    empty, so the divisor is not zero. *)
Definition recent_average (h : list float) : float :=
  (sum_scores (last_n 5 h) / float_of_int (len (last_n 5 h)))%float.

(** The list [adjustments] as the method has built it before the final test. *)
Definition adjustments (response_style : string) (is_off_track : bool)
    (history : list float) : list string :=
  let a0 : list string := [] in
  let a1 :=
    if bool_decide (response_style = "concise") then (a0 ++ [concise_directive])%list
    else if bool_decide (response_style = "detailed") then (a0 ++ [detailed_directive])%list
    else a0 in
  let a2 := if is_off_track then (a1 ++ [off_track_directive])%list else a1 in
  match history with
  | [] => a2
  | _ :: _ =>
      if (recent_average history <? 4)%float
      then (a2 ++ [low_satisfaction_directive])%list
      else a2
  end.

Definition get_personalized_prompt_adjustments (now : Z) (u base_prompt : string)
    (t : UserBehaviorTracker) : UserBehaviorTracker * string :=
  let '(t1, profile) := get_user_profile u t in
  let '(t2, response_style) := analyze_response_style_preference now u t1 in
  let is_off_track := bool_decide (default 0 (off_track_patterns t2 !! u) > 2) in
  let adjs := adjustments response_style is_off_track
                (UserProfile.satisfaction_history profile) in
  match adjs with
  | [] => (t2, base_prompt)
  | _ :: _ =>
      let personalized_note :=
        notes_header ++ Text.join Text.nl (map (fun adj => "- " ++ adj) adjs) in
      (t2, base_prompt ++ personalized_note)
  end.

(** *** Learning from feedback *)

Record ImprovementSignals := {
  too_long : bool;
  too_short : bool;
  not_helpful : bool;
  inaccurate : bool;
  tone_issue : bool
}.

Definition improvement_signals (feedback_lower : string) : ImprovementSignals := {|
  too_long := Text.str_in "too long" feedback_lower || Text.str_in "verbose" feedback_lower;
  too_short := Text.str_in "too short" feedback_lower || Text.str_in "brief" feedback_lower;
  not_helpful := Text.str_in "not helpful" feedback_lower || Text.str_in "useless" feedback_lower;
  inaccurate := Text.str_in "wrong" feedback_lower || Text.str_in "incorrect" feedback_lower;
  tone_issue := Text.str_in "rude" feedback_lower || Text.str_in "inappropriate" feedback_lower
|}.

(** The two [if] statements that write into [profile.preferences]. *)
Definition learned_preferences (sig : ImprovementSignals) (prefs : gmap string string)
  : gmap string string :=
  let prefs1 :=
    if too_long sig then <["response_length" := "shorter"]> prefs
    else if too_short sig then <["response_length" := "longer"]> prefs
    else prefs in
  if tone_issue sig then <["tone" := "more_professional"]> prefs1 else prefs1.

Definition learn_from_feedback (sb : option Supabase) (u fb : string) (score : float)
    (t : UserBehaviorTracker) : UserBehaviorTracker :=
  let '(t1, profile) := get_user_profile u t in
  let sig := improvement_signals (Text.lower fb) in
  let profile' :=
    UserProfile.set_preferences profile
      (learned_preferences sig (UserProfile.preferences profile)) in
  let t2 := set_user_profiles t1 (<[u := profile']> (user_profiles t1)) in
  mirror sb t2.

(** *** Reliability report *)

(** One value of the [agent_performance] dictionary. *)
Record AgentPerf := {
  count : Z;
  avg_satisfaction : float;
  satisfaction_scores : list float
}.

(** The default factory of [agent_performance]. *)
Definition new_perf : AgentPerf :=
  {| count := 0; avg_satisfaction := 0%float; satisfaction_scores := [] |}.

(** The body of the first loop: count the interaction under its agent and
    keep its score when it has one. *)
Definition tally (m : gmap string AgentPerf) (interaction : UserInteraction)
  : gmap string AgentPerf :=
  let agent_perf := default new_perf (m !! agent_name interaction) in
  <[agent_name interaction :=
      {| count := count agent_perf + 1;
         avg_satisfaction := avg_satisfaction agent_perf;
         satisfaction_scores :=
           match satisfaction_score interaction with
           | Some s => (satisfaction_scores agent_perf ++ [s])%list
           | None => satisfaction_scores agent_perf
           end |}]> m.

(** The body of the second loop; the division is guarded by
    [if perf["satisfaction_scores"]], so its divisor is not zero. *)
Definition average (perf : AgentPerf) : AgentPerf :=
  match satisfaction_scores perf with
  | [] => perf
  | _ :: _ =>
      {| count := count perf;
         avg_satisfaction :=
           (sum_scores (satisfaction_scores perf)
            / float_of_int (len (satisfaction_scores perf)))%float;
         satisfaction_scores := satisfaction_scores perf |}
  end.

Definition agent_performance_of (l : list UserInteraction) : gmap string AgentPerf :=
  average <$> foldl tally ∅ l.

(** The scores of the interactions that have one, in order:
    [i.satisfaction_score for i in l if i.satisfaction_score is not None]. *)
Definition scored (l : list UserInteraction) : list float :=
  omap satisfaction_score l.

(** Line 362: [len(off_track_patterns) / len(user_profiles) if user_profiles else 0]. *)
Definition off_track_rate_of (t : UserBehaviorTracker) : Qc :=
  if decide (user_profiles t = ∅) then Qc_of_Z 0
  else (Qc_of_Z (Z.of_nat (size (off_track_patterns t)))
        / Qc_of_Z (Z.of_nat (size (user_profiles t))))%Qc.

Record Metrics := {
  total_interactions : Z;
  unique_users : Z;
  average_satisfaction : float;
  off_track_rate : Qc;
  agent_performance : gmap string AgentPerf;
  report_timestamp : Z
}.

(** What [get_reliability_metrics] returns: the dictionary with the single
    key ["error"], or the dictionary of metrics. *)
Inductive Report :=
| NoData (error : string)
| Measured (m : Metrics).

Definition get_reliability_metrics (now : Z) (t : UserBehaviorTracker) : result Report :=
  let total := len (interactions t) in
  if decide (total = 0) then Return (NoData "No interactions recorded")
  else
    avg ← match interactions t with
          | [] => Return 0%float
          | _ :: _ => truediv (sum_scores (scored (interactions t)))
                              (len (scored (interactions t)))
          end;
    let rate := off_track_rate_of t in
    let perf := agent_performance_of (interactions t) in
    Return (Measured
      {| total_interactions := total;
         unique_users := Z.of_nat (size (user_profiles t));
         average_satisfaction := avg;
         off_track_rate := rate;
         agent_performance := perf;
         report_timestamp := now |}).

(** ** Sequences of public operations *)

Inductive op :=
| RecordInteraction (u kind agent input output : string)
    (score : option float) (fb : option string) (md : option (list (string * string)))
| GetUserProfile (u : string)
| AnalyzeResponseStyle (u : string)
| PersonalizePrompt (u base_prompt : string)
| LearnFromFeedback (u fb : string) (score : float)
| GetReliabilityMetrics.

(** The tracker after one public call, whatever the call returned or raised. *)
Definition run (sb : option Supabase) (now : Z) (o : op) (t : UserBehaviorTracker)
  : UserBehaviorTracker :=
  match o with
  | RecordInteraction u kind agent input output score fb md =>
      record_interaction sb now u kind agent input output score fb md t
  | GetUserProfile u => fst (get_user_profile u t)
  | AnalyzeResponseStyle u => fst (analyze_response_style_preference now u t)
  | PersonalizePrompt u base_prompt =>
      fst (get_personalized_prompt_adjustments now u base_prompt t)
  | LearnFromFeedback u fb score => learn_from_feedback sb u fb score t
  | GetReliabilityMetrics => t
  end.

(** The trackers that a fresh tracker can become. *)
Inductive reachable : UserBehaviorTracker → Prop :=
| reachable_init : reachable init
| reachable_run sb now o t : reachable t → reachable (run sb now o t).

(** ** Vocabulary of the statements *)

(** [self.off_track_patterns.get(u, 0)] *)
Definition off_count (u : string) (t : UserBehaviorTracker) : Z :=
  default 0 (off_track_patterns t !! u).

(** The detector's verdict, without the counter. *)
Definition off_track (interaction : UserInteraction) : bool :=
  match first_indicator off_track_indicators
          (Text.lower (input_text interaction))
          (Text.lower (default "" (feedback interaction))) with
  | Some _ => true
  | None =>
      match satisfaction_score interaction with
      | Some s => (s <? 3)%float
      | None => false
      end
  end.

(** The record that [record_interaction] builds. *)
Definition new_interaction (now : Z) (u kind agent input output : string)
    (score : option float) (fb : option string) (md : option (list (string * string)))
  : UserInteraction :=
  {| user_id := u; interaction_type := kind; agent_name := agent;
     input_text := input; output_text := output; timestamp := now;
     satisfaction_score := score; feedback := fb; metadata := default [] md |}.

(** A text mentions a phrase of the detector's list, letter case aside. *)
Definition mentions_off_track (text : string) : Prop :=
  ∃ phrase, phrase ∈ off_track_indicators ∧ Text.ci_substring_of phrase text.

(** The trigger condition of the detector: a phrase in the input text or in
    the feedback text, or a score that is present and below 3. *)
Definition off_track_trigger (input : string) (fb : option string) (score : option float)
  : Prop :=
  mentions_off_track input
  ∨ (∃ f, fb = Some f ∧ mentions_off_track f)
  ∨ (∃ s, score = Some s ∧ (s <? 3)%float = true).

(** The interaction records of one user. *)
Definition records_of (u : string) (l : list UserInteraction) : list UserInteraction :=
  filter (fun i => user_id i = u) l.

(** Every profile counts the records of its user; a user without a profile
    has no record. *)
Definition counts_agree (t : UserBehaviorTracker) : Prop :=
  ∀ u, UserProfile.interaction_count (profile_of u (user_profiles t))
       = len (records_of u (interactions t)).

(** Every stored off-track counter is positive and belongs to a user who has
    a profile. *)
Definition off_track_known (t : UserBehaviorTracker) : Prop :=
  ∀ u n, off_track_patterns t !! u = Some n →
         0 < n ∧ is_Some (user_profiles t !! u).

(** The entries of the off-track map whose counter is not zero: the users
    with a non-zero off-track counter. *)
Definition off_track_users (t : UserBehaviorTracker) : gmap string Z :=
  filter (fun kv => kv.2 ≠ 0) (off_track_patterns t).

(** The mean of a list of scores as Python computes it: the scores are added
    from the left in floating point, and the sum is divided by their number. *)
Definition float_mean (xs : list float) : float :=
  (sum_scores xs / float_of_int (len xs))%float.

(** The rational number a float stands for; infinities and NaN stand for
    none. *)
Definition exact (x : float) : option Q :=
  match Prim2SF x with
  | S754_zero _ => Some 0%Q
  | S754_finite sign m e =>
      Some ((if sign then -1 else 1) * inject_Z (Z.pos m) * Qpower 2 e)%Q
  | _ => None
  end.






(** A text contains one of the indicators, as written. *)
Definition mentions (inds : list string) (text : string) : Prop :=
  Exists (fun ind => Text.substring_of ind text) inds.

Global Instance mentions_dec inds text : Decision (mentions inds text).
Proof. unfold mentions. apply _. Defined.

(** The interactions of [u] whose age at [now] is below seven days. *)
Definition window (now : Z) (u : string) (l : list UserInteraction)
  : list UserInteraction :=
  filter (fun i => user_id i = u ∧ now - timestamp i < seven_days) l.

(** The rule of style inference.  [view] is what is read of an input text
    before the indicators are looked up in it. *)
Definition style_rule (view : string → string) (now : Z) (u : string)
    (t : UserBehaviorTracker) (style : string) : Prop :=
  let n := UserProfile.interaction_count (profile_of u (user_profiles t)) in
  let w := window now u (interactions t) in
  let c := length (filter (fun i => mentions concise_indicators (view (input_text i))) w) in
  let d := length (filter (fun i => mentions detailed_indicators (view (input_text i))) w) in
  (n < 3 → style = "balanced")
  ∧ (3 ≤ n →
       ((c > d)%nat → style = "concise")
       ∧ ((d > c)%nat → style = "detailed")
       ∧ (c = d → style = "balanced")).

(** Three messages of one user, written in capitals. *)
Definition shouting : UserBehaviorTracker :=
  let say := fun t => record_interaction None 0 "u" "telegram_message" "A"
                        "KEEP IT SHORT" "ok" None None None t in
  say (say (say init)).

(** The directive for a style that is not "balanced". *)
Definition style_directive (style : string) : string :=
  if decide (style = "concise") then concise_directive else detailed_directive.

(** The satisfaction history is not empty and the mean of its last five
    entries, as computed in floating point, is below 4. *)
Definition low_satisfaction (history : list float) : Prop :=
  history ≠ [] ∧ (float_mean (last_n 5 history) <? 4)%float = true.

Global Instance low_satisfaction_dec history : Decision (low_satisfaction history).
Proof.
  unfold low_satisfaction. destruct history as [|s h].
  - right. by intros [? _].
  - destruct (decide ((float_mean (last_n 5 (s :: h)) <? 4)%float = true));
      [left | right]; [by split | by intros [_ ?]].
Defined.

(** The directives that apply, in their order of precedence. *)
Definition applicable_directives (style : string) (off : Z) (history : list float)
  : list string :=
  ((if decide (style = "balanced") then [] else [style_directive style])
   ++ (if decide (off > 2) then [off_track_directive] else [])
   ++ (if decide (low_satisfaction history) then [low_satisfaction_directive] else []))%list.

(** One line per directive, each opened by a line feed and the mark ["- "]. *)
Fixpoint directive_lines (ds : list string) : string :=
  match ds with
  | [] => ""
  | d :: rest => Text.nl ++ "- " ++ d ++ directive_lines rest
  end.

(** One scored interaction of user "u" with agent "A". *)
Definition scored_once : UserBehaviorTracker :=
  run None 0
    (RecordInteraction "u" "telegram_message" "A" "hi" "hello"
       (Some 5%float) None None)
    init.





(** Three recent requests for something short. *)
Definition three_short : UserBehaviorTracker :=
  let say := fun t => record_interaction None 0 "u" "telegram_message" "A"
                        "keep it short" "ok" None None None t in
  say (say (say init)).

(** *** Vocabulary of the further properties *)

(** A sequence of public calls, each with the client and the clock it sees. *)
Definition run_all (steps : list (option Supabase * Z * op)) (t : UserBehaviorTracker)
  : UserBehaviorTracker :=
  foldl (fun acc step => run step.1.1 step.1.2 step.2 acc) t steps.

(** The call is a [record_interaction]. *)
Definition is_record (o : op) : bool :=
  match o with
  | RecordInteraction _ _ _ _ _ _ _ _ => true
  | _ => false
  end.

(** The call ends in the [if supabase:] block: it can write to Supabase. *)
Definition writes_through (o : op) : bool :=
  match o with
  | RecordInteraction _ _ _ _ _ _ _ _ | LearnFromFeedback _ _ _ => true
  | _ => false
  end.

(** The three fields that cache the table probe. *)
Definition flags (t : UserBehaviorTracker) : bool * bool * bool :=
  (supabase_tables_checked t, has_user_interactions_table t, has_user_learning_table t).

(** The records on which the detector fires. *)
Definition triggering (l : list UserInteraction) : list UserInteraction :=
  filter (fun i => off_track i = true) l.

(** The profile repeats what the log says about its user: the scores of the
    user's records in order, the time of the last one, and nothing else was
    ever written to the three fields no method assigns. *)
Definition profile_mirrors_log (t : UserBehaviorTracker) : Prop :=
  ∀ u, let p := profile_of u (user_profiles t) in
       let rs := records_of u (interactions t) in
       UserProfile.user_id p = u
       ∧ UserProfile.preferred_response_style p = "balanced"
       ∧ UserProfile.common_questions p = []
       ∧ UserProfile.satisfaction_history p = scored rs
       ∧ UserProfile.last_interaction p = last (timestamp <$> rs).

(** Each off-track counter counts the triggering records of its user. *)
Definition off_track_counts_log (t : UserBehaviorTracker) : Prop :=
  ∀ u, off_count u t = len (triggering (records_of u (interactions t))).

(** A key and a value that [learn_from_feedback] can write. *)
Definition learnable (k v : string) : Prop :=
  (k = "response_length" ∧ (v = "shorter" ∨ v = "longer"))
  ∨ (k = "tone" ∧ v = "more_professional").

Definition preferences_learnable (t : UserBehaviorTracker) : Prop :=
  ∀ u k v, UserProfile.preferences (profile_of u (user_profiles t)) !! k = Some v →
           learnable k v.

(** The sum of the [count] fields of a per-agent table. *)
Definition total_count (m : gmap string AgentPerf) : Z :=
  map_fold (fun _ perf acc => count perf + acc) 0 m.

(** A client whose first table answers and whose second table is missing. *)
Definition half_there : Supabase :=
  {| probe_user_interactions := ProbeOk; probe_user_learning := ProbeTableMissing |}.

(** [scored_once] recorded through the client [half_there]. *)
Definition probed : UserBehaviorTracker :=
  run (Some half_there) 0
    (RecordInteraction "u" "telegram_message" "A" "hi" "hello"
       (Some 5%float) None None)
    init.

(** [scored_once] followed by a message of another user. *)
Definition two_users : UserBehaviorTracker :=
  run None 5
    (RecordInteraction "v" "telegram_message" "B" "this is useless" "sorry"
       None None None)
    scored_once.

(** [scored_once] after feedback on length and tone. *)
Definition learned : UserBehaviorTracker :=
  run None 9 (LearnFromFeedback "u" "Too long, and rude" 2%float) scored_once.

(** ** What each operation does to the three stores *)

Lemma mirror_interactions sb t : interactions (mirror sb t) = interactions t.
Proof. unfold mirror. destruct sb; [destruct (supabase_tables_checked t)|]; done. Qed.

Lemma mirror_user_profiles sb t : user_profiles (mirror sb t) = user_profiles t.
Proof. unfold mirror. destruct sb; [destruct (supabase_tables_checked t)|]; done. Qed.

Lemma mirror_off_track_patterns sb t :
  off_track_patterns (mirror sb t) = off_track_patterns t.
Proof. unfold mirror. destruct sb; [destruct (supabase_tables_checked t)|]; done. Qed.

Lemma mirror_unconfigured t : mirror None t = t.
Proof. done. Qed.

Lemma detect_off_track_eq u i t :
  _detect_off_track u i t =
  (if off_track i then set_off_track_patterns t (incr u (off_track_patterns t)) else t,
   off_track i).
Proof.
  unfold _detect_off_track, off_track.
  destruct (first_indicator _ _ _); [done|].
  destruct (satisfaction_score i) as [s|]; [|done].
  by destruct (s <? 3)%float.
Qed.

Lemma detect_interactions u i t :
  interactions (_detect_off_track u i t).1 = interactions t.
Proof. rewrite detect_off_track_eq. by destruct (off_track i). Qed.

Lemma detect_user_profiles u i t :
  user_profiles (_detect_off_track u i t).1 = user_profiles t.
Proof. rewrite detect_off_track_eq. by destruct (off_track i). Qed.

Lemma detect_off_track_patterns u i t :
  off_track_patterns (_detect_off_track u i t).1 =
  if off_track i then incr u (off_track_patterns t) else off_track_patterns t.
Proof. rewrite detect_off_track_eq. by destruct (off_track i). Qed.

Lemma record_interaction_interactions sb now u kind agent input output score fb md t :
  interactions (record_interaction sb now u kind agent input output score fb md t) =
  (interactions t ++ [new_interaction now u kind agent input output score fb md])%list.
Proof.
  unfold record_interaction. by rewrite mirror_interactions, detect_interactions.
Qed.

Lemma record_interaction_user_profiles sb now u kind agent input output score fb md t :
  user_profiles (record_interaction sb now u kind agent input output score fb md t) =
  <[u := note_interaction (profile_of u (user_profiles t)) now score]> (user_profiles t).
Proof.
  unfold record_interaction. rewrite mirror_user_profiles, detect_user_profiles. simpl.
  unfold ensure_profile, profile_of.
  destruct (user_profiles t !! u) as [p|] eqn:Hu; simpl.
  - by rewrite Hu.
  - by rewrite lookup_insert_eq, insert_insert_eq.
Qed.

Lemma record_interaction_off_track_patterns
    sb now u kind agent input output score fb md t :
  off_track_patterns (record_interaction sb now u kind agent input output score fb md t) =
  if off_track (new_interaction now u kind agent input output score fb md)
  then incr u (off_track_patterns t) else off_track_patterns t.
Proof.
  unfold record_interaction.
  by rewrite mirror_off_track_patterns, detect_off_track_patterns.
Qed.

Lemma get_user_profile_interactions u t :
  interactions (get_user_profile u t).1 = interactions t.
Proof. done. Qed.

Lemma get_user_profile_off_track_patterns u t :
  off_track_patterns (get_user_profile u t).1 = off_track_patterns t.
Proof. done. Qed.

Lemma get_user_profile_user_profiles u t :
  user_profiles (get_user_profile u t).1 = ensure_profile u (user_profiles t).
Proof. done. Qed.

Lemma ensure_profile_lookup u m v :
  ensure_profile u m !! v =
  if decide (u = v) then Some (profile_of u m) else m !! v.
Proof.
  unfold ensure_profile, profile_of. case_decide as Huv.
  - subst v. destruct (m !! u) as [p|] eqn:Hu; simpl; [done|]. by rewrite lookup_insert_eq.
  - destruct (m !! u); [done|]. by rewrite lookup_insert_ne.
Qed.

Lemma ensure_profile_idemp u m : ensure_profile u (ensure_profile u m) = ensure_profile u m.
Proof.
  unfold ensure_profile at 1. rewrite ensure_profile_lookup.
  by rewrite decide_True.
Qed.

Lemma profile_of_ensure u m : profile_of u (ensure_profile u m) = profile_of u m.
Proof.
  unfold profile_of at 1. rewrite ensure_profile_lookup. by rewrite decide_True.
Qed.

Lemma analyze_fst now u t :
  (analyze_response_style_preference now u t).1 = (get_user_profile u t).1.
Proof.
  unfold analyze_response_style_preference. simpl.
  repeat (destruct (bool_decide _); [done|]). done.
Qed.

Lemma personalize_fst now u base t :
  (get_personalized_prompt_adjustments now u base t).1 = (get_user_profile u t).1.
Proof.
  unfold get_personalized_prompt_adjustments.
  destruct (get_user_profile u t) as [t1 p] eqn:H1.
  destruct (analyze_response_style_preference now u t1) as [t2 style] eqn:H2.
  assert (t2 = t1) as ->.
  { change t2 with (t2, style).1. rewrite <- H2, analyze_fst.
    injection H1 as <- _. unfold get_user_profile. simpl.
    by rewrite ensure_profile_idemp. }
  destruct (adjustments _ _ _); done.
Qed.

(** ** The off-track detector *)

Lemma first_indicator_is_Some inds a b :
  is_Some (first_indicator inds a b) ↔
  ∃ ind, ind ∈ inds ∧
    (Text.substring_of (Text.lower ind) a ∨ Text.substring_of (Text.lower ind) b).
Proof.
  induction inds as [|ind inds IH]; simpl.
  - split; [intros [x Hx]; discriminate | intros [ind [Hin _]]; by apply elem_of_nil in Hin].
  - destruct (Text.str_in (Text.lower ind) a || Text.str_in (Text.lower ind) b) eqn:Hm.
    + split; [intros _ | by eauto].
      exists ind. split; [apply list_elem_of_here|].
      apply orb_true_iff in Hm. by rewrite <- !TextFacts.str_in_spec.
    + apply orb_false_iff in Hm as [Ha Hb].
      apply TextFacts.str_in_false in Ha, Hb.
      rewrite IH. split.
      * intros [x [Hin Hx]]. exists x. split; [by apply list_elem_of_further | done].
      * intros [x [Hin Hx]]. apply elem_of_cons in Hin as [-> | Hin]; [tauto | by exists x].
Qed.

(** No phrase of the detector is empty, so none occurs in an absent feedback. *)
Lemma off_track_indicators_nonempty ind :
  ind ∈ off_track_indicators → Text.lower ind ≠ "".
Proof.
  unfold off_track_indicators. rewrite !elem_of_cons, elem_of_nil.
  intros H. repeat (destruct H as [-> | H]; [done|]). done.
Qed.

Lemma off_track_spec now u kind agent input output score fb md :
  off_track (new_interaction now u kind agent input output score fb md) = true ↔
  off_track_trigger input fb score.
Proof.
  unfold off_track, off_track_trigger, mentions_off_track, Text.ci_substring_of.
  cbn [new_interaction input_text feedback satisfaction_score].
  destruct (first_indicator _ _ _) as [ind|] eqn:Hfirst.
  - split; [intros _ | done].
    pose proof (mk_is_Some _ _ Hfirst) as Hsome.
    apply first_indicator_is_Some in Hsome as [phrase [Hin [Hsub | Hsub]]].
    + left. by exists phrase.
    + right; left. destruct fb as [f|]; simpl in Hsub.
      * exists f. split; [done | by exists phrase].
      * apply TextFacts.substring_of_empty in Hsub.
        by apply off_track_indicators_nonempty in Hin.
  - assert (¬ is_Some (first_indicator off_track_indicators (Text.lower input)
                         (Text.lower (default "" fb)))) as Hnone.
    { rewrite Hfirst. by intros [x Hx]. }
    rewrite first_indicator_is_Some in Hnone.
    split.
    + destruct score as [s|]; [|done].
      intros Hs. right; right. by exists s.
    + intros [[phrase [Hin Hsub]] | [[f [-> [phrase [Hin Hsub]]]] | [s [-> Hs]]]].
      * destruct Hnone. exists phrase. by auto.
      * destruct Hnone. exists phrase. by auto.
      * done.
Qed.

Lemma off_count_incr u v m :
  default 0 (incr u m !! v) = default 0 (m !! v) + (if decide (u = v) then 1 else 0).
Proof.
  unfold incr. case_decide as Huv.
  - subst v. by rewrite lookup_insert_eq.
  - rewrite lookup_insert_ne by done. lia.
Qed.

(** C3. One call of [record_interaction] adds exactly 1 to the off-track
    counter of the recorded user when the new record triggers the detector
    (a phrase of the fixed list occurs, letter case aside, in the input text
    or in the feedback text, or the score is present and below 3), and adds
    0 otherwise; the counters of the other users do not move; a second call
    with the same triggering arguments adds 1 again. *)
Theorem record_interaction_off_track_counter
    sb now u kind agent input output score fb md t :
  let t' := record_interaction sb now u kind agent input output score fb md t in
  (off_track_trigger input fb score → off_count u t' = off_count u t + 1)
  ∧ (¬ off_track_trigger input fb score → off_count u t' = off_count u t)
  ∧ (∀ v, v ≠ u → off_count v t' = off_count v t)
  ∧ (off_track_trigger input fb score →
     ∀ sb' now',
       off_count u
         (record_interaction sb' now' u kind agent input output score fb md t')
       = off_count u t + 2).
Proof.
  intros t'.
  assert (∀ sb0 now0 t0 v,
    off_count v (record_interaction sb0 now0 u kind agent input output score fb md t0) =
    off_count v t0 +
    (if off_track (new_interaction now0 u kind agent input output score fb md)
     then if decide (u = v) then 1 else 0 else 0)) as Hstep.
  { intros sb0 now0 t0 v. unfold off_count.
    rewrite record_interaction_off_track_patterns.
    destruct (off_track _); [apply off_count_incr | lia]. }
  repeat split.
  - intros Htrig. unfold t'. rewrite Hstep.
    apply off_track_spec with (now := now) (u := u) (kind := kind) (agent := agent)
      (output := output) (md := md) in Htrig.
    rewrite Htrig, decide_True by done. done.
  - intros Hno. unfold t'. rewrite Hstep.
    destruct (off_track _) eqn:Hoff; [|lia].
    apply off_track_spec in Hoff. done.
  - intros v Hv. unfold t'. rewrite Hstep.
    destruct (off_track _); [|lia]. rewrite decide_False by done. lia.
  - intros Htrig sb' now'. unfold t'. rewrite !Hstep.
    pose proof Htrig as Htrig'.
    apply off_track_spec with (now := now) (u := u) (kind := kind) (agent := agent)
      (output := output) (md := md) in Htrig.
    apply off_track_spec with (now := now') (u := u) (kind := kind) (agent := agent)
      (output := output) (md := md) in Htrig'.
    rewrite Htrig, Htrig', decide_True by done. lia.
Qed.

(** ** Invariants of the reachable trackers *)

Lemma insert_ensure_profile u p m : <[u := p]> (ensure_profile u m) = <[u := p]> m.
Proof.
  unfold ensure_profile. destruct (m !! u); [done|]. by rewrite insert_insert_eq.
Qed.

Lemma profile_of_ensure_any u v m : profile_of u (ensure_profile v m) = profile_of u m.
Proof.
  unfold profile_of at 1. rewrite ensure_profile_lookup. case_decide; [by subst|done].
Qed.

Lemma profile_of_insert u v p m :
  profile_of u (<[v := p]> m) = if decide (v = u) then p else profile_of u m.
Proof.
  unfold profile_of. case_decide.
  - subst v. by rewrite lookup_insert_eq.
  - by rewrite lookup_insert_ne.
Qed.

Lemma records_of_snoc u l i :
  records_of u (l ++ [i]) =
  (records_of u l ++ if decide (user_id i = u) then [i] else [])%list.
Proof.
  unfold records_of. rewrite filter_app, filter_cons, filter_nil. by case_decide.
Qed.

Lemma learn_from_feedback_interactions sb u fb score t :
  interactions (learn_from_feedback sb u fb score t) = interactions t.
Proof. unfold learn_from_feedback. simpl. by rewrite mirror_interactions. Qed.

Lemma learn_from_feedback_off_track_patterns sb u fb score t :
  off_track_patterns (learn_from_feedback sb u fb score t) = off_track_patterns t.
Proof. unfold learn_from_feedback. simpl. by rewrite mirror_off_track_patterns. Qed.

Lemma learn_from_feedback_user_profiles sb u fb score t :
  user_profiles (learn_from_feedback sb u fb score t) =
  <[u := UserProfile.set_preferences (profile_of u (user_profiles t))
           (learned_preferences (improvement_signals (Text.lower fb))
              (UserProfile.preferences (profile_of u (user_profiles t))))]>
    (user_profiles t).
Proof.
  unfold learn_from_feedback. simpl. rewrite mirror_user_profiles. simpl.
  by rewrite insert_ensure_profile, profile_of_ensure.
Qed.

(** The three stores after a call that only fetches a profile. *)
Lemma run_fetch_stores sb now o t :
  match o with
  | GetUserProfile u | AnalyzeResponseStyle u | PersonalizePrompt u _ =>
      interactions (run sb now o t) = interactions t
      ∧ off_track_patterns (run sb now o t) = off_track_patterns t
      ∧ user_profiles (run sb now o t) = ensure_profile u (user_profiles t)
  | _ => True
  end.
Proof.
  destruct o; simpl; try done.
  - by rewrite analyze_fst.
  - by rewrite personalize_fst.
Qed.

Lemma counts_agree_run sb now o t : counts_agree t → counts_agree (run sb now o t).
Proof.
  intros Hinv v. pose proof (run_fetch_stores sb now o t) as Hfetch.
  destruct o; try (destruct Hfetch as (-> & _ & ->); by rewrite profile_of_ensure_any).
  - simpl. rewrite record_interaction_interactions, record_interaction_user_profiles.
    rewrite profile_of_insert, records_of_snoc. unfold len.
    rewrite length_app. cbn [new_interaction user_id].
    specialize (Hinv v). unfold len in Hinv.
    case_decide as Huv.
    + subst v. simpl. lia.
    + simpl. lia.
  - simpl. rewrite learn_from_feedback_interactions, learn_from_feedback_user_profiles.
    rewrite profile_of_insert. case_decide; [subst; simpl|]; apply Hinv.
  - apply Hinv.
Qed.

Lemma off_track_known_run sb now o t : off_track_known t → off_track_known (run sb now o t).
Proof.
  intros Hinv v n. pose proof (run_fetch_stores sb now o t) as Hfetch.
  destruct o;
    try (destruct Hfetch as (_ & -> & ->); intros Hn; apply Hinv in Hn as [Hpos Hsome];
         split; [done|]; rewrite ensure_profile_lookup; by case_decide).
  - simpl. rewrite record_interaction_off_track_patterns, record_interaction_user_profiles.
    destruct (off_track _).
    + unfold incr. destruct (decide (u = v)) as [->|Hne].
      * rewrite !lookup_insert_eq. intros [= <-]. split; [|done].
        destruct (off_track_patterns t !! v) as [k|] eqn:Hk; simpl; [|lia].
        apply Hinv in Hk. lia.
      * rewrite !lookup_insert_ne by done. apply Hinv.
    + intros Hn. apply Hinv in Hn as [Hpos Hsome]. split; [done|].
      destruct (decide (u = v)) as [->|Hne];
        [by rewrite lookup_insert_eq | by rewrite lookup_insert_ne].
  - simpl. rewrite learn_from_feedback_off_track_patterns, learn_from_feedback_user_profiles.
    intros Hn. apply Hinv in Hn as [Hpos Hsome]. split; [done|].
    destruct (decide (u = v)) as [->|Hne];
      [by rewrite lookup_insert_eq | by rewrite lookup_insert_ne].
  - apply Hinv.
Qed.

Lemma reachable_counts_agree t : reachable t → counts_agree t.
Proof.
  induction 1 as [|sb now o t _ IH]; [|by apply counts_agree_run].
  intros u. unfold profile_of, init. simpl. by rewrite lookup_empty.
Qed.

Lemma reachable_off_track_known t : reachable t → off_track_known t.
Proof.
  induction 1 as [|sb now o t _ IH]; [|by apply off_track_known_run].
  intros u n. unfold init. simpl. by rewrite lookup_empty.
Qed.

(** C2. After any finite sequence of public calls, for every user, the
    stored profile of that user (and the profile [get_user_profile] hands
    out) has an [interaction_count] equal to the number of interaction
    records of that user; a user without a stored profile has no record. *)
Theorem interaction_count_matches_records (t : UserBehaviorTracker) :
  reachable t →
  ∀ u,
    (∀ p, user_profiles t !! u = Some p →
          UserProfile.interaction_count p = len (records_of u (interactions t)))
    ∧ (user_profiles t !! u = None → records_of u (interactions t) = [])
    ∧ UserProfile.interaction_count (get_user_profile u t).2
      = len (records_of u (interactions t)).
Proof.
  intros Hreach u. pose proof (reachable_counts_agree t Hreach u) as Hu.
  repeat split.
  - intros p Hp. unfold profile_of in Hu. by rewrite Hp in Hu.
  - intros Hnone. unfold profile_of in Hu. rewrite Hnone in Hu. simpl in Hu.
    unfold len in Hu. destruct (records_of u (interactions t)); [done | simpl in Hu; lia].
  - simpl. by rewrite profile_of_ensure.
Qed.

(** ** The off-track rate *)

Lemma ratio_bounds (a b : Z) :
  0 ≤ a ≤ b → 0 < b → (0 ≤ Qc_of_Z a / Qc_of_Z b ≤ 1)%Qc.
Proof.
  intros [Ha Hab] Hb.
  apply Z2Qc_inj_le in Ha, Hab. apply Z2Qc_inj_lt in Hb.
  rewrite Z2Qc_inj_0 in Ha, Hb.
  assert (Qc_of_Z b ≠ 0%Qc) as Hb0.
  { intros Heq. rewrite Heq in Hb. by apply (Qclt_not_eq 0 0). }
  unfold Qcdiv. split.
  - apply Qcmult_nonneg_nonneg; [done|]. by apply Qclt_le_weak, Qcinv_pos.
  - apply (Qcmult_le_mono_pos_r _ _ (Qc_of_Z b)); [done|].
    by rewrite <- Qcmult_assoc, Qcmult_inv_l, Qcmult_1_r, Qcmult_1_l.
Qed.

Lemma off_track_users_all t :
  off_track_known t → off_track_users t = off_track_patterns t.
Proof.
  intros Hinv. unfold off_track_users. apply map_filter_id.
  intros u n Hn. apply Hinv in Hn as [Hpos _]. simpl. lia.
Qed.

Lemma off_track_size_le t :
  off_track_known t → (size (off_track_patterns t) ≤ size (user_profiles t))%nat.
Proof.
  intros Hinv.
  rewrite <- (size_dom (D := gset string) (off_track_patterns t)).
  rewrite <- (size_dom (D := gset string) (user_profiles t)).
  apply subseteq_size. intros u. rewrite !elem_of_dom.
  intros [n Hn]. by apply Hinv in Hn as [_ Hsome].
Qed.

Lemma get_reliability_metrics_rate now t m :
  get_reliability_metrics now t = Return (Measured m) →
  off_track_rate m = off_track_rate_of t.
Proof.
  unfold get_reliability_metrics. case_decide; [done|].
  destruct (interactions t); simpl.
  - by intros [= <-].
  - destruct (truediv _ _); simpl; [by intros [= <-] | done].
Qed.

(** ** The reliability report *)

Lemma len_zero_iff {A} (xs : list A) : len xs = 0 ↔ xs = [].
Proof. unfold len. destruct xs; simpl; split; (done || lia). Qed.

Lemma truediv_len (x : float) {A} (xs : list A) :
  xs ≠ [] → truediv x (len xs) = Return (x / float_of_int (len xs))%float.
Proof.
  intros Hxs. unfold truediv. rewrite decide_False; [done|]. by rewrite len_zero_iff.
Qed.

(** The three ways [get_reliability_metrics] can end. *)
Lemma get_reliability_metrics_cases now t :
  (interactions t = [] →
     get_reliability_metrics now t = Return (NoData "No interactions recorded"))
  ∧ (interactions t ≠ [] → scored (interactions t) = [] →
     get_reliability_metrics now t = Raise ZeroDivisionError)
  ∧ (scored (interactions t) ≠ [] →
     get_reliability_metrics now t =
       Return (Measured
         {| total_interactions := len (interactions t);
            unique_users := Z.of_nat (size (user_profiles t));
            average_satisfaction :=
              (sum_scores (scored (interactions t))
               / float_of_int (len (scored (interactions t))))%float;
            off_track_rate := off_track_rate_of t;
            agent_performance := agent_performance_of (interactions t);
            report_timestamp := now |})).
Proof.
  unfold get_reliability_metrics. repeat split.
  - intros ->. done.
  - intros Hne Hnone. rewrite decide_False by by rewrite len_zero_iff.
    destruct (interactions t) as [|i l] eqn:Hl; [done|]. by rewrite Hnone.
  - intros Hsome.
    assert (interactions t ≠ []) as Hne by (intros Heq; by rewrite Heq in Hsome).
    rewrite decide_False by by rewrite len_zero_iff.
    destruct (interactions t) as [|i l] eqn:Hl; [done|].
    by rewrite truediv_len.
Qed.

(** C8. In a tracker reached by public calls every user with a non-zero
    off-track counter has a profile; the off-track rate is the number of
    users with a non-zero counter divided by the number of profiles (and 0
    when there is no profile), it lies between 0 and 1, it is 0 when no
    counter is non-zero, and it is the [off_track_rate] of every report
    that [get_reliability_metrics] returns; such a report is returned
    whenever some interaction has a score. *)
Theorem off_track_rate_ratio (t : UserBehaviorTracker) :
  reachable t →
  (∀ u, off_count u t ≠ 0 → is_Some (user_profiles t !! u))
  ∧ (size (off_track_users t) ≤ size (user_profiles t))%nat
  ∧ (size (user_profiles t) ≠ 0%nat →
     off_track_rate_of t =
       (Qc_of_Z (Z.of_nat (size (off_track_users t)))
        / Qc_of_Z (Z.of_nat (size (user_profiles t))))%Qc)
  ∧ (size (user_profiles t) = 0%nat → off_track_rate_of t = Qc_of_Z 0)
  ∧ (Qc_of_Z 0 ≤ off_track_rate_of t ≤ Qc_of_Z 1)%Qc
  ∧ ((∀ u, off_count u t = 0) → off_track_rate_of t = Qc_of_Z 0)
  ∧ (∀ now m, get_reliability_metrics now t = Return (Measured m) →
              off_track_rate m = off_track_rate_of t)
  ∧ (∀ now, scored (interactions t) ≠ [] →
       ∃ m, get_reliability_metrics now t = Return (Measured m)
         ∧ off_track_rate m = off_track_rate_of t).
Proof.
  intros Hreach. pose proof (reachable_off_track_known t Hreach) as Hinv.
  pose proof (off_track_users_all t Hinv) as Hall.
  pose proof (off_track_size_le t Hinv) as Hle.
  assert (∀ u, off_count u t ≠ 0 → is_Some (user_profiles t !! u)) as Hknown.
  { intros u. unfold off_count.
    destruct (off_track_patterns t !! u) as [n|] eqn:Hn; simpl; [|done].
    intros _. by apply Hinv in Hn as [_ Hsome]. }
  assert (size (user_profiles t) ≠ 0%nat →
          off_track_rate_of t =
            (Qc_of_Z (Z.of_nat (size (off_track_users t)))
             / Qc_of_Z (Z.of_nat (size (user_profiles t))))%Qc) as Hratio.
  { intros Hn. unfold off_track_rate_of. rewrite Hall.
    rewrite decide_False; [done|]. by apply map_size_non_empty_iff. }
  assert (size (user_profiles t) = 0%nat → off_track_rate_of t = Qc_of_Z 0) as Hzero.
  { intros Hn. unfold off_track_rate_of.
    rewrite decide_True; [done|]. by apply map_size_empty_iff. }
  split; [done|]. split; [by rewrite Hall|]. split; [done|]. split; [done|].
  split; [|split].
  - destruct (decide (size (user_profiles t) = 0%nat)) as [Hn|Hn].
    + rewrite (Hzero Hn), Z2Qc_inj_0, Z2Qc_inj_1. done.
    + rewrite (Hratio Hn), Hall, Z2Qc_inj_0, Z2Qc_inj_1. apply ratio_bounds; lia.
  - intros Hnone.
    destruct (decide (size (user_profiles t) = 0%nat)) as [Hn|Hn]; [by apply Hzero|].
    rewrite (Hratio Hn), Hall.
    assert (off_track_patterns t = ∅) as ->.
    { apply map_empty. intros u. specialize (Hnone u). unfold off_count in Hnone.
      destruct (off_track_patterns t !! u) as [n|] eqn:Hu; [|done].
      simpl in Hnone. apply Hinv in Hu as [Hpos _]. lia. }
    rewrite map_size_empty. change (Z.of_nat 0) with 0. unfold Qcdiv.
    by rewrite Z2Qc_inj_0, Qcmult_0_l.
  - split; [intros now m; apply get_reliability_metrics_rate|].
    intros now Hscored.
    destruct (get_reliability_metrics_cases now t) as (_ & _ & Hret).
    eexists. split; [by apply Hret | done].
Qed.

(** C1. A tracker that holds one interaction without a score: the report
    raises [ZeroDivisionError] instead of returning a metrics record. *)
Theorem get_reliability_metrics_unscored_raises (now : Z) :
  let t := record_interaction None 0 "u" "telegram_message" "A" "hi" "hello"
             None None None init in
  interactions t ≠ [] ∧ get_reliability_metrics now t = Raise ZeroDivisionError.
Proof. split; [done|]. apply get_reliability_metrics_cases; done. Qed.









(** ** Style inference *)

Lemma List_filter_reflect {A} (f : A → bool) (P : A → Prop) `{∀ x, Decision (P x)} l :
  (∀ x, f x = true ↔ P x) → List.filter f l = filter P l.
Proof.
  intros Hf. induction l as [|x l IH]; [done|].
  simpl. rewrite filter_cons, IH. destruct (f x) eqn:Hx.
  - apply Hf in Hx. by rewrite decide_True.
  - rewrite decide_False; [done|]. rewrite <- Hf. by rewrite Hx.
Qed.

Lemma count_where_filter {A} (f : A → bool) (P : A → Prop) `{∀ x, Decision (P x)} l :
  (∀ x, f x = true ↔ P x) → count_where f l = Z.of_nat (length (filter P l)).
Proof.
  intros Hf. unfold count_where.
  enough (∀ a, foldl (λ acc x, if f x then acc + 1 else acc) a l
               = a + Z.of_nat (length (filter P l))) as Hgen by apply Hgen.
  induction l as [|x l IH]; intros a; simpl; [lia|].
  rewrite IH, filter_cons. destruct (f x) eqn:Hx.
  - apply Hf in Hx. rewrite decide_True by done. simpl. lia.
  - rewrite decide_False; [done|]. rewrite <- Hf. by rewrite Hx.
Qed.

Lemma recent_interactions_window now u t :
  recent_interactions now u t = window now u (interactions t).
Proof.
  unfold recent_interactions, window. apply List_filter_reflect.
  intros i. by rewrite andb_true_iff, !bool_decide_eq_true.
Qed.

Lemma analyze_cases now u t :
  let n := UserProfile.interaction_count (profile_of u (user_profiles t)) in
  let w := window now u (interactions t) in
  let c := Z.of_nat (length (filter
             (fun i => mentions concise_indicators (Text.lower (input_text i))) w)) in
  let d := Z.of_nat (length (filter
             (fun i => mentions detailed_indicators (Text.lower (input_text i))) w)) in
  (analyze_response_style_preference now u t).2 =
  if decide (n < 3) then "balanced"
  else if decide (c > d) then "concise"
  else if decide (d > c) then "detailed"
  else "balanced".
Proof.
  intros n w c d. unfold analyze_response_style_preference.
  destruct (get_user_profile u t) as [t1 p] eqn:Hget.
  injection Hget as <- <-. rewrite profile_of_ensure. fold n.
  destruct (decide (n < 3)) as [Hn|Hn].
  { by rewrite bool_decide_eq_true_2. }
  rewrite bool_decide_eq_false_2 by done.
  rewrite recent_interactions_window. cbn [interactions set_user_profiles]. fold w.
  rewrite (count_where_filter _
             (fun i => mentions concise_indicators (Text.lower (input_text i))))
    by (intros i; apply TextFacts.any_in_spec).
  rewrite (count_where_filter _
             (fun i => mentions detailed_indicators (Text.lower (input_text i))))
    by (intros i; apply TextFacts.any_in_spec).
  fold c d.
  destruct (decide (c > d)); [by rewrite bool_decide_eq_true_2|].
  rewrite bool_decide_eq_false_2 by done.
  destruct (decide (d > c)); [by rewrite bool_decide_eq_true_2|].
  by rewrite bool_decide_eq_false_2.
Qed.

(** The inferred style is one of the three style names. *)
Lemma analyze_range now u t :
  (analyze_response_style_preference now u t).2 ∈ ["concise"; "detailed"; "balanced"].
Proof.
  rewrite analyze_cases. repeat case_decide; set_solver.
Qed.

(** C4, amended. Style inference answers "balanced" for a user whose
    [interaction_count] is below 3; otherwise, among that user's interactions
    younger than seven days, it compares how many have a lower-cased input
    text that contains a concise indicator with how many have a lower-cased
    input text that contains a detailed indicator: "concise" when the first
    number is larger, "detailed" when the second is, "balanced" on a tie.
    The two numbers are counted apart, so one interaction can add to both. *)
Theorem style_inference_rule (now : Z) (u : string) (t : UserBehaviorTracker) :
  style_rule Text.lower now u t (analyze_response_style_preference now u t).2.
Proof.
  unfold style_rule. rewrite analyze_cases.
  split.
  - intros Hn. by rewrite decide_True.
  - intros Hn. rewrite decide_False by lia.
    repeat split.
    + intros Hc. rewrite decide_True by lia. done.
    + intros Hd. rewrite decide_False by lia. rewrite decide_True by lia. done.
    + intros Heq. rewrite Heq. rewrite !decide_False by lia. done.
Qed.

(** C4 as it is written fails: the three input texts of [shouting] contain no
    indicator as written, so the written rule asks for "balanced" on the tie
    of 0 against 0, and the method answers "concise". *)
Lemma style_rule_as_written_fails :
  ¬ style_rule (fun s => s) 1 "u" shouting
      (analyze_response_style_preference 1 "u" shouting).2.
Proof.
  intros [_ Hrule].
  destruct Hrule as (_ & _ & Htie); [by vm_compute|].
  assert ((analyze_response_style_preference 1 "u" shouting).2 = "concise") as Hstyle
    by (by vm_compute).
  rewrite Hstyle in Htie. discriminate Htie. by vm_compute.
Qed.

(** ** Prompt personalisation *)

Lemma append_assoc (a b c : string) : (a ++ b) ++ c = a ++ (b ++ c).
Proof.
  induction a as [|x a IH]; [done|].
  change (String x ((a ++ b) ++ c) = String x (a ++ b ++ c)). by rewrite IH.
Qed.

Lemma append_empty_r (a : string) : a ++ "" = a.
Proof.
  induction a as [|x a IH]; [done|].
  change (String x (a ++ "") = String x a). by rewrite IH.
Qed.

Lemma join_directive_lines d ds :
  Text.nl ++ Text.join Text.nl (map (fun adj => "- " ++ adj) (d :: ds))
  = directive_lines (d :: ds).
Proof.
  revert d. induction ds as [|d' ds IH]; intros d.
  - cbn. by rewrite append_empty_r.
  - change (Text.join Text.nl (map (λ adj, "- " ++ adj) (d :: d' :: ds)))
      with (("- " ++ d) ++ Text.nl
            ++ Text.join Text.nl (map (λ adj, "- " ++ adj) (d' :: ds))).
    rewrite IH. cbn [directive_lines]. by rewrite !append_assoc.
Qed.

Lemma adjustments_applicable style off history :
  style ∈ ["concise"; "detailed"; "balanced"] →
  adjustments style (bool_decide (off > 2)) history
  = applicable_directives style off history.
Proof.
  intros Hstyle. unfold adjustments, applicable_directives, bool_decide.
  assert (∀ a : list string,
    match history with
    | [] => a
    | _ :: _ =>
        if (recent_average history <? 4)%float
        then (a ++ [low_satisfaction_directive])%list else a
    end
    = (a ++ if decide (low_satisfaction history)
            then [low_satisfaction_directive] else [])%list) as Hlow.
  { intros a. destruct history as [|s h].
    - rewrite decide_False by (by intros [? _]). by rewrite app_nil_r.
    - change (recent_average (s :: h)) with (float_mean (last_n 5 (s :: h))).
      destruct (float_mean (last_n 5 (s :: h)) <? 4)%float eqn:Hlt.
      + rewrite decide_True; [done | by split].
      + rewrite decide_False; [by rewrite app_nil_r|].
        intros [_ Htrue]. by rewrite Hlt in Htrue. }
  cbv zeta. rewrite Hlow. clear Hlow.
  rewrite !elem_of_cons, elem_of_nil in Hstyle.
  destruct Hstyle as [-> | [-> | [-> | []]]];
    repeat case_decide; done.
Qed.

Lemma analyze_after_get now u t :
  (analyze_response_style_preference now u (get_user_profile u t).1).2
  = (analyze_response_style_preference now u t).2.
Proof.
  rewrite !analyze_cases. cbn [get_user_profile fst interactions user_profiles
    set_user_profiles]. by rewrite profile_of_ensure.
Qed.

Lemma personalize_snd now u base t :
  (get_personalized_prompt_adjustments now u base t).2 =
  match applicable_directives (analyze_response_style_preference now u t).2
          (off_count u t)
          (UserProfile.satisfaction_history (profile_of u (user_profiles t))) with
  | [] => base
  | d :: ds => base ++ Text.nl ++ Text.nl ++ "PERSONALIZATION NOTES:"
               ++ directive_lines (d :: ds)
  end.
Proof.
  rewrite <- adjustments_applicable by apply analyze_range.
  unfold get_personalized_prompt_adjustments, get_user_profile. cbv beta iota zeta.
  destruct (analyze_response_style_preference now u _) as [t2 style] eqn:Han.
  assert (style = (analyze_response_style_preference now u t).2) as ->.
  { change style with (t2, style).2. rewrite <- Han. apply analyze_after_get. }
  assert (off_track_patterns t2 = off_track_patterns t) as ->.
  { change t2 with (t2, (analyze_response_style_preference now u t).2).1.
    rewrite <- Han. by rewrite analyze_fst. }
  rewrite profile_of_ensure. fold (off_count u t).
  destruct (adjustments _ _ _) as [|d ds]; [done|].
  cbn [snd]. f_equal. unfold notes_header.
  rewrite <- join_directive_lines. by rewrite !append_assoc.
Qed.




(** ** Learning from feedback *)

Lemma str_in_lower_spec (phrase fb : string) :
  Text.lower phrase = phrase →
  Text.str_in phrase (Text.lower fb) = true ↔ Text.ci_substring_of phrase fb.
Proof.
  intros Hlow. unfold Text.ci_substring_of. rewrite Hlow. apply TextFacts.str_in_spec.
Qed.

Lemma improvement_signals_spec fb :
  let sig := improvement_signals (Text.lower fb) in
  let says := fun phrase => Text.ci_substring_of phrase fb in
  (too_long sig = true ↔ says "too long" ∨ says "verbose")
  ∧ (too_short sig = true ↔ says "too short" ∨ says "brief")
  ∧ (tone_issue sig = true ↔ says "rude" ∨ says "inappropriate").
Proof.
  unfold improvement_signals. cbn [too_long too_short tone_issue].
  rewrite !orb_true_iff, !str_in_lower_spec by done. done.
Qed.

(** C6. After [learn_from_feedback] the user has a profile whose preferences
    hold ["response_length"] = "shorter" when the feedback contains, letter
    case aside, "too long" or "verbose"; else "longer" when it contains "too
    short" or "brief"; and ["tone"] = "more_professional" when it contains
    "rude" or "inappropriate".  For the feedback "too long and rude" both
    "shorter" and "more_professional" are set. *)
Theorem learn_from_feedback_preferences
    (sb : option Supabase) (u : string) (t : UserBehaviorTracker) :
  (∀ fb score,
     let says := fun phrase => Text.ci_substring_of phrase fb in
     ∃ p, user_profiles (learn_from_feedback sb u fb score t) !! u = Some p
       ∧ (says "too long" ∨ says "verbose" →
          UserProfile.preferences p !! "response_length" = Some "shorter")
       ∧ (¬ (says "too long" ∨ says "verbose") → says "too short" ∨ says "brief" →
          UserProfile.preferences p !! "response_length" = Some "longer")
       ∧ (says "rude" ∨ says "inappropriate" →
          UserProfile.preferences p !! "tone" = Some "more_professional"))
  ∧ (∃ p, user_profiles (learn_from_feedback sb u "too long and rude" 2%float t) !! u
          = Some p
       ∧ UserProfile.preferences p !! "response_length" = Some "shorter"
       ∧ UserProfile.preferences p !! "tone" = Some "more_professional").
Proof.
  assert (∀ fb score,
     let says := fun phrase => Text.ci_substring_of phrase fb in
     ∃ p, user_profiles (learn_from_feedback sb u fb score t) !! u = Some p
       ∧ (says "too long" ∨ says "verbose" →
          UserProfile.preferences p !! "response_length" = Some "shorter")
       ∧ (¬ (says "too long" ∨ says "verbose") → says "too short" ∨ says "brief" →
          UserProfile.preferences p !! "response_length" = Some "longer")
       ∧ (says "rude" ∨ says "inappropriate" →
          UserProfile.preferences p !! "tone" = Some "more_professional")) as Hgen.
  { intros fb score says.
    rewrite learn_from_feedback_user_profiles, lookup_insert_eq.
    eexists. split; [done|]. cbn [UserProfile.set_preferences UserProfile.preferences].
    destruct (improvement_signals_spec fb) as (Hlong & Hshort & Htone).
    fold says in Hlong, Hshort, Htone. unfold learned_preferences.
    repeat split.
    - intros Hsays. apply Hlong in Hsays. rewrite Hsays.
      destruct (tone_issue _); rewrite ?lookup_insert_ne by done;
        by rewrite lookup_insert_eq.
    - intros Hnot Hsays. apply Hshort in Hsays. rewrite Hsays.
      destruct (too_long _) eqn:Hl; [destruct Hnot; by apply Hlong|].
      destruct (tone_issue _); rewrite ?lookup_insert_ne by done;
        by rewrite lookup_insert_eq.
    - intros Hsays. apply Htone in Hsays. rewrite Hsays. by rewrite lookup_insert_eq. }
  split; [done|].
  destruct (Hgen "too long and rude" 2%float) as (p & Hp & Hlong & _ & Htone).
  exists p. split; [done|]. split.
  - apply Hlong. left. by exists "", " and rude".
  - apply Htone. left. by exists "too long and ", "".
Qed.

(** ** Lazy creation of profiles *)

(** C9. [get_user_profile] is total.  For a user without a profile it stores
    and returns the default profile, whose [interaction_count] is 0; a second
    call returns the same profile and leaves the tracker as the first call
    left it, so the user map has grown by exactly one entry.  Style
    inference and prompt personalisation create the same default profile for
    such a user. *)
Theorem get_user_profile_unseen (u : string) (t : UserBehaviorTracker) :
  user_profiles t !! u = None →
  let first := get_user_profile u t in
  let second := get_user_profile u first.1 in
  first.2 = UserProfile.new u
  ∧ UserProfile.interaction_count first.2 = 0
  ∧ user_profiles first.1 !! u = Some first.2
  ∧ second.2 = first.2
  ∧ UserProfile.interaction_count second.2 = 0
  ∧ second.1 = first.1
  ∧ size (user_profiles second.1) = S (size (user_profiles t))
  ∧ (∀ v, v ≠ u → user_profiles second.1 !! v = user_profiles t !! v)
  ∧ (∀ now, user_profiles (analyze_response_style_preference now u t).1 !! u
            = Some (UserProfile.new u))
  ∧ (∀ now base, user_profiles (get_personalized_prompt_adjustments now u base t).1 !! u
                 = Some (UserProfile.new u)).
Proof.
  intros Hnone first second.
  assert (first.2 = UserProfile.new u) as Hfirst.
  { unfold first. simpl. rewrite profile_of_ensure. unfold profile_of. by rewrite Hnone. }
  assert (user_profiles first.1 = <[u := UserProfile.new u]> (user_profiles t)) as Hmap.
  { unfold first. simpl. unfold ensure_profile. by rewrite Hnone. }
  assert (second.1 = first.1) as Hsame.
  { unfold second, first, get_user_profile. simpl. by rewrite ensure_profile_idemp. }
  assert (second.2 = first.2) as Hsame2.
  { unfold second, first. simpl. by rewrite !profile_of_ensure. }
  split; [done|]. split; [by rewrite Hfirst|].
  split; [by rewrite Hmap, Hfirst, lookup_insert_eq|].
  split; [done|]. split; [by rewrite Hsame2, Hfirst|]. split; [done|].
  split; [by rewrite Hsame, Hmap, map_size_insert_None|].
  split; [intros v Hv; by rewrite Hsame, Hmap, lookup_insert_ne|].
  split.
  - intros now. rewrite analyze_fst. fold first. by rewrite Hmap, lookup_insert_eq.
  - intros now base. rewrite personalize_fst. fold first.
    by rewrite Hmap, lookup_insert_eq.
Qed.

(** C10. [learn_from_feedback] leaves the interaction log and every
    off-track counter as they were, leaves the profile of every other user
    as it was, and stores for its user the profile that user had (the
    default one if there was none) with only the preferences replaced: the
    score is not appended to the satisfaction history, and the interaction
    count and the time of the last interaction are unchanged. *)
Theorem learn_from_feedback_frame
    (sb : option Supabase) (u fb : string) (score : float) (t : UserBehaviorTracker) :
  let t' := learn_from_feedback sb u fb score t in
  let old := profile_of u (user_profiles t) in
  interactions t' = interactions t
  ∧ off_track_patterns t' = off_track_patterns t
  ∧ (∀ v, off_count v t' = off_count v t)
  ∧ (∀ v, v ≠ u → user_profiles t' !! v = user_profiles t !! v)
  ∧ (∃ p, user_profiles t' !! u = Some p
       ∧ p = UserProfile.set_preferences old (UserProfile.preferences p)
       ∧ UserProfile.satisfaction_history p = UserProfile.satisfaction_history old
       ∧ UserProfile.interaction_count p = UserProfile.interaction_count old
       ∧ UserProfile.last_interaction p = UserProfile.last_interaction old)
  ∧ (user_profiles t !! u = None → old = UserProfile.new u)
  ∧ (sb = None → t' = set_user_profiles t (user_profiles t')).
Proof.
  intros t' old. unfold t'.
  split; [apply learn_from_feedback_interactions|].
  split; [apply learn_from_feedback_off_track_patterns|].
  split; [intros v; unfold off_count; by rewrite learn_from_feedback_off_track_patterns|].
  split; [intros v Hv; by rewrite learn_from_feedback_user_profiles, lookup_insert_ne|].
  split; [|split].
  - rewrite learn_from_feedback_user_profiles, lookup_insert_eq. eexists. by split.
  - intros Hnone. unfold old, profile_of. by rewrite Hnone.
  - by intros ->.
Qed.

(** ** The statements at concrete trackers *)

Lemma scored_once_reachable : reachable scored_once.
Proof. apply reachable_run, reachable_init. Qed.

(** The report after one interaction with score 5 handled by agent "A". *)
Example scored_once_report :
  ∃ m, get_reliability_metrics 1 scored_once = Return (Measured m)
    ∧ total_interactions m = 1
    ∧ unique_users m = 1
    ∧ average_satisfaction m = 5%float
    ∧ avg_satisfaction <$> agent_performance m !! "A" = Some 5%float.
Proof.
  eexists. split; [apply get_reliability_metrics_cases; by vm_compute|].
  repeat split. all: by vm_compute.
Qed.

Lemma interaction_count_matches_records_witness :
  reachable scored_once
  ∧ UserProfile.interaction_count (get_user_profile "u" scored_once).2
    = len (records_of "u" (interactions scored_once)).
Proof.
  split; [apply reachable_run, reachable_init|].
  apply (interaction_count_matches_records scored_once
           (reachable_run None 0 _ init reachable_init) "u").
Defined.


Lemma off_track_rate_ratio_witness :
  reachable two_users
  ∧ off_count "v" two_users = 1
  ∧ size (off_track_users two_users) = 1%nat
  ∧ size (user_profiles two_users) = 2%nat
  ∧ ∃ m, get_reliability_metrics 7 two_users = Return (Measured m)
       ∧ off_track_rate m = (Qc_of_Z 1 / Qc_of_Z 2)%Qc
       ∧ (Qc_of_Z 0 ≤ off_track_rate m ≤ Qc_of_Z 1)%Qc.
Proof.
  assert (reachable two_users) as Hreach
    by exact (reachable_run _ _ _ _ (reachable_run _ _ _ _ reachable_init)).
  assert (size (user_profiles two_users) ≠ 0%nat) as Hsize by (vm_compute; discriminate).
  assert (scored (interactions two_users) ≠ []) as Hscored by (vm_compute; discriminate).
  destruct (off_track_rate_ratio two_users Hreach)
    as (_ & _ & Hratio & _ & Hbounds & _ & _ & Hreport).
  destruct (Hreport 7 Hscored) as (m & Hm & Hrate).
  split; [exact Hreach|]. split; [reflexivity|]. split; [reflexivity|].
  split; [reflexivity|].
  exists m. split; [exact Hm|]. rewrite Hrate.
  split; [exact (Hratio Hsize) | exact Hbounds].
Defined.

Lemma get_user_profile_unseen_witness :
  user_profiles init !! "u" = None
  ∧ UserProfile.interaction_count (get_user_profile "u" init).2 = 0
  ∧ size (user_profiles (get_user_profile "u" (get_user_profile "u" init).1).1) = 1%nat.
Proof.
  assert (user_profiles init !! "u" = None) as Hnone by reflexivity.
  split; [exact Hnone|].
  destruct (get_user_profile_unseen "u" init Hnone)
    as (_ & Hcount & _ & _ & _ & _ & Hsize & _).
  split; [exact Hcount | exact Hsize].
Defined.

(** ** The calls, one by one *)

Lemma run_interactions sb now o t :
  interactions (run sb now o t) =
  match o with
  | RecordInteraction u kind agent input output score fb md =>
      (interactions t ++ [new_interaction now u kind agent input output score fb md])%list
  | _ => interactions t
  end.
Proof.
  pose proof (run_fetch_stores sb now o t) as Hfetch.
  destruct o; try (by destruct Hfetch as (-> & _ & _)).
  - apply record_interaction_interactions.
  - apply learn_from_feedback_interactions.
  - done.
Qed.

Lemma run_off_track_patterns sb now o t :
  off_track_patterns (run sb now o t) =
  match o with
  | RecordInteraction u kind agent input output score fb md =>
      if off_track (new_interaction now u kind agent input output score fb md)
      then incr u (off_track_patterns t) else off_track_patterns t
  | _ => off_track_patterns t
  end.
Proof.
  pose proof (run_fetch_stores sb now o t) as Hfetch.
  destruct o; try (by destruct Hfetch as (_ & -> & _)).
  - apply record_interaction_off_track_patterns.
  - apply learn_from_feedback_off_track_patterns.
  - done.
Qed.

Lemma run_profile_of sb now o t v :
  profile_of v (user_profiles (run sb now o t)) =
  match o with
  | RecordInteraction u _ _ _ _ score _ _ =>
      if decide (u = v)
      then note_interaction (profile_of v (user_profiles t)) now score
      else profile_of v (user_profiles t)
  | LearnFromFeedback u fb _ =>
      if decide (u = v)
      then UserProfile.set_preferences (profile_of v (user_profiles t))
             (learned_preferences (improvement_signals (Text.lower fb))
                (UserProfile.preferences (profile_of v (user_profiles t))))
      else profile_of v (user_profiles t)
  | _ => profile_of v (user_profiles t)
  end.
Proof.
  pose proof (run_fetch_stores sb now o t) as Hfetch.
  destruct o; try (destruct Hfetch as (_ & _ & ->); by rewrite profile_of_ensure_any).
  - simpl. rewrite record_interaction_user_profiles, profile_of_insert.
    by case_decide; subst.
  - simpl. rewrite learn_from_feedback_user_profiles, profile_of_insert.
    by case_decide; subst.
  - done.
Qed.

Lemma scored_snoc l i :
  scored (l ++ [i]) =
  (scored l ++ match satisfaction_score i with Some s => [s] | None => [] end)%list.
Proof.
  unfold scored. rewrite omap_app. f_equal.
Qed.

Lemma profile_mirrors_log_run sb now o t :
  profile_mirrors_log t → profile_mirrors_log (run sb now o t).
Proof.
  intros Hinv v. specialize (Hinv v). cbv zeta in Hinv.
  destruct Hinv as (Hid & Hstyle & Hq & Hhist & Hlast).
  cbv zeta. rewrite run_profile_of, run_interactions.
  destruct o; try done.
  - rewrite records_of_snoc. cbn [new_interaction user_id].
    case_decide as Huv; [subst v|by rewrite app_nil_r].
    cbn [note_interaction UserProfile.user_id UserProfile.preferred_response_style
         UserProfile.common_questions UserProfile.satisfaction_history
         UserProfile.last_interaction].
    repeat split; try done.
    + rewrite scored_snoc. cbn [satisfaction_score]. rewrite Hhist.
      destruct score; [done | by rewrite app_nil_r].
    + rewrite fmap_app. cbn [fmap list_fmap]. by rewrite last_snoc.
  - by case_decide.
Qed.

Lemma reachable_profile_mirrors_log t : reachable t → profile_mirrors_log t.
Proof.
  induction 1 as [|sb now o t _ IH]; [|by apply profile_mirrors_log_run].
  intros u. unfold profile_of, init. simpl. by rewrite lookup_empty.
Qed.

Lemma off_track_counts_log_run sb now o t :
  off_track_counts_log t → off_track_counts_log (run sb now o t).
Proof.
  intros Hinv v. specialize (Hinv v). unfold off_count in *.
  rewrite run_off_track_patterns, run_interactions.
  destruct o; try done.
  rewrite records_of_snoc. cbn [new_interaction user_id].
  unfold triggering. rewrite filter_app. fold (triggering (records_of v (interactions t))).
  unfold len. rewrite length_app.
  set (i := new_interaction now u kind agent input output score fb md).
  destruct (off_track i) eqn:Hoff.
  - rewrite off_count_incr, Hinv. unfold len.
    case_decide as Huv; [|simpl; lia].
    rewrite filter_cons, decide_True by done. simpl. lia.
  - rewrite Hinv. unfold len.
    case_decide as Huv; [|simpl; lia].
    rewrite filter_cons, decide_False by (by rewrite Hoff). simpl. lia.
Qed.

Lemma reachable_off_track_counts_log t : reachable t → off_track_counts_log t.
Proof.
  induction 1 as [|sb now o t _ IH]; [|by apply off_track_counts_log_run].
  intros u. unfold off_count, init. simpl. by rewrite lookup_empty.
Qed.

Lemma learned_preferences_lookup sig prefs k v :
  learned_preferences sig prefs !! k = Some v → learnable k v ∨ prefs !! k = Some v.
Proof.
  unfold learned_preferences, learnable.
  destruct (too_long sig), (too_short sig), (tone_issue sig);
    rewrite ?lookup_insert; repeat case_decide; subst;
    intros Hk; simplify_eq; tauto.
Qed.

Lemma preferences_learnable_run sb now o t :
  preferences_learnable t → preferences_learnable (run sb now o t).
Proof.
  intros Hinv v k x. rewrite run_profile_of.
  destruct o; try apply Hinv.
  - case_decide; [|apply Hinv]. cbn [note_interaction UserProfile.preferences]. apply Hinv.
  - case_decide; [|apply Hinv]. cbn [UserProfile.set_preferences UserProfile.preferences].
    intros Hk. apply learned_preferences_lookup in Hk as [Hk|Hk]; [done|]. by eapply Hinv.
Qed.

Lemma reachable_preferences_learnable t : reachable t → preferences_learnable t.
Proof.
  induction 1 as [|sb now o t _ IH]; [|by apply preferences_learnable_run].
  intros u k v. unfold profile_of, init. simpl. by rewrite !lookup_empty.
Qed.

Lemma profile_of_stored u m p : m !! u = Some p → profile_of u m = p.
Proof. intros Hp. unfold profile_of. by rewrite Hp. Qed.

(** ** Further properties: what the profiles and counters record *)

(** X1. After any sequence of public calls, the satisfaction history of a
    stored profile is the list of the scores of that user's records, in the
    order of the log, and its [last_interaction] is the timestamp of the
    user's last record (absent when the user has no record). *)
Theorem profile_history_is_log (t : UserBehaviorTracker) :
  reachable t →
  ∀ u p, user_profiles t !! u = Some p →
    UserProfile.satisfaction_history p = scored (records_of u (interactions t))
    ∧ UserProfile.last_interaction p
      = last (timestamp <$> records_of u (interactions t)).
Proof.
  intros Hreach u p Hp.
  destruct (reachable_profile_mirrors_log t Hreach u) as (_ & _ & _ & Hhist & Hlast).
  rewrite (profile_of_stored _ _ _ Hp) in Hhist, Hlast. done.
Qed.

(** X2. No public call writes the fields [user_id],
    [preferred_response_style] and [common_questions] of a profile: in every
    reachable tracker a profile carries the user id it is stored under, the
    style "balanced" (whatever style inference has answered) and no common
    question. *)
Theorem profile_fixed_fields (t : UserBehaviorTracker) :
  reachable t →
  ∀ u p, user_profiles t !! u = Some p →
    UserProfile.user_id p = u
    ∧ UserProfile.preferred_response_style p = "balanced"
    ∧ UserProfile.common_questions p = [].
Proof.
  intros Hreach u p Hp.
  destruct (reachable_profile_mirrors_log t Hreach u) as (Hid & Hstyle & Hq & _).
  rewrite (profile_of_stored _ _ _ Hp) in Hid, Hstyle, Hq. done.
Qed.

(** X3. After any sequence of public calls, the off-track counter of a user
    is the number of that user's records on which the detector fires; it is
    therefore between 0 and the number of the user's records. *)
Theorem off_track_counter_counts_triggers (t : UserBehaviorTracker) :
  reachable t →
  ∀ u, off_count u t = len (triggering (records_of u (interactions t)))
       ∧ 0 ≤ off_count u t ≤ len (records_of u (interactions t)).
Proof.
  intros Hreach u. pose proof (reachable_off_track_counts_log t Hreach u) as Hu.
  split; [done|]. rewrite Hu. unfold len, triggering.
  pose proof (length_filter (λ i, off_track i = true) (records_of u (interactions t))).
  lia.
Qed.

(** X4. After any sequence of public calls, the preferences of every profile
    hold nothing but what the feedback learner writes: the key
    "response_length" with "shorter" or "longer", and the key "tone" with
    "more_professional". *)
Theorem preferences_only_learned (t : UserBehaviorTracker) :
  reachable t →
  ∀ u p k v, user_profiles t !! u = Some p →
    UserProfile.preferences p !! k = Some v → learnable k v.
Proof.
  intros Hreach u p k v Hp Hk.
  apply (reachable_preferences_learnable t Hreach u k v).
  by rewrite (profile_of_stored _ _ _ Hp).
Qed.

(** X5. After any sequence of public calls, every user who has a record in
    the log has a profile; a non-empty log comes with a non-empty user map,
    so the report divides by a number of profiles that is not zero. *)
Theorem logged_users_have_profiles (t : UserBehaviorTracker) :
  reachable t →
  (∀ i, i ∈ interactions t → is_Some (user_profiles t !! user_id i))
  ∧ (interactions t ≠ [] → user_profiles t ≠ ∅).
Proof.
  intros Hreach.
  assert (∀ i, i ∈ interactions t → is_Some (user_profiles t !! user_id i)) as Hall.
  { intros i Hi. pose proof (reachable_counts_agree t Hreach (user_id i)) as Hu.
    destruct (user_profiles t !! user_id i) as [p|] eqn:Hp; [done|].
    unfold profile_of in Hu. rewrite Hp in Hu. simpl in Hu.
    assert (i ∈ records_of (user_id i) (interactions t)) as Hin
      by (by apply list_elem_of_filter).
    destruct (records_of (user_id i) (interactions t)); [by apply elem_of_nil in Hin|].
    unfold len in Hu. simpl in Hu. lia. }
  split; [done|].
  intros Hne Hempty. destruct (interactions t) as [|i l] eqn:Hl; [done|].
  destruct (Hall i) as [p Hp]; [apply list_elem_of_here|].
  by rewrite Hempty, lookup_empty in Hp.
Qed.

(** ** Further properties: what style inference and the prompt depend on *)

Lemma window_records now u l :
  window now u l = filter (fun i => now - timestamp i < seven_days) (records_of u l).
Proof.
  unfold window, records_of. rewrite list_filter_filter.
  apply list_filter_iff. intros i. tauto.
Qed.

Lemma filter_none {A} (P : A → Prop) `{∀ x, Decision (P x)} (l : list A) :
  (∀ x, x ∈ l → ¬ P x) → filter P l = [].
Proof.
  intros Hnone. destruct (filter P l) as [|x l'] eqn:Hf; [done|].
  assert (x ∈ filter P l) as Hx by (rewrite Hf; apply list_elem_of_here).
  apply list_elem_of_filter in Hx as [HP Hx]. by apply Hnone in Hx.
Qed.

Lemma set_user_profiles_same t : set_user_profiles t (user_profiles t) = t.
Proof. by destruct t. Qed.

Lemma ensure_profile_known u m : is_Some (m !! u) → ensure_profile u m = m.
Proof. intros [p Hp]. unfold ensure_profile. by rewrite Hp. Qed.

(** X6. For trackers reached by public calls, the style inferred for a user
    and the personalised prompt built for that user depend on nothing but
    the records of that user in the log: two reachable trackers that agree
    on these records give the same style and the same prompt, whatever
    other users did and whatever feedback was learned. *)
Theorem prompt_depends_on_own_records
    (now : Z) (u base : string) (t1 t2 : UserBehaviorTracker) :
  reachable t1 → reachable t2 →
  records_of u (interactions t1) = records_of u (interactions t2) →
  (analyze_response_style_preference now u t1).2
  = (analyze_response_style_preference now u t2).2
  ∧ (get_personalized_prompt_adjustments now u base t1).2
    = (get_personalized_prompt_adjustments now u base t2).2.
Proof.
  intros H1 H2 Hrec.
  assert ((analyze_response_style_preference now u t1).2
          = (analyze_response_style_preference now u t2).2) as Hstyle.
  { rewrite !analyze_cases, !window_records.
    rewrite (reachable_counts_agree t1 H1 u), (reachable_counts_agree t2 H2 u).
    by rewrite Hrec. }
  split; [done|].
  rewrite !personalize_snd, Hstyle.
  rewrite (reachable_off_track_counts_log t1 H1 u), (reachable_off_track_counts_log t2 H2 u).
  destruct (reachable_profile_mirrors_log t1 H1 u) as (_ & _ & _ & -> & _).
  destruct (reachable_profile_mirrors_log t2 H2 u) as (_ & _ & _ & -> & _).
  by rewrite Hrec.
Qed.

(** X7. When every record of the user is seven days old or older at the time
    of the call (seven days exactly included), style inference answers
    "balanced", however many records there are and whatever they say. *)
Theorem stale_history_is_balanced (now : Z) (u : string) (t : UserBehaviorTracker) :
  (∀ i, i ∈ interactions t → user_id i = u → seven_days ≤ now - timestamp i) →
  (analyze_response_style_preference now u t).2 = "balanced".
Proof.
  intros Hold. rewrite analyze_cases.
  assert (window now u (interactions t) = []) as ->.
  { unfold window. apply filter_none. intros i Hi [Hu Hage].
    specialize (Hold i Hi Hu). lia. }
  rewrite !filter_nil. simpl. by repeat case_decide.
Qed.

(** X8. For a user who already has a profile, [get_user_profile], style
    inference and prompt personalisation leave the whole tracker as it was;
    so does a report, which returns no tracker at all. *)
Theorem reads_keep_tracker (now : Z) (u base : string) (t : UserBehaviorTracker) :
  is_Some (user_profiles t !! u) →
  (get_user_profile u t).1 = t
  ∧ (analyze_response_style_preference now u t).1 = t
  ∧ (get_personalized_prompt_adjustments now u base t).1 = t.
Proof.
  intros Hknown.
  assert ((get_user_profile u t).1 = t) as Hget.
  { simpl. rewrite ensure_profile_known by done. apply set_user_profiles_same. }
  by rewrite analyze_fst, personalize_fst, Hget.
Qed.

Lemma set_preferences_same p :
  UserProfile.set_preferences p (UserProfile.preferences p) = p.
Proof. by destruct p. Qed.

Lemma learned_preferences_idemp sig prefs :
  learned_preferences sig (learned_preferences sig prefs) = learned_preferences sig prefs.
Proof.
  unfold learned_preferences. apply map_eq. intros k.
  destruct (too_long sig), (too_short sig), (tone_issue sig);
    rewrite ?lookup_insert; by repeat case_decide.
Qed.

Lemma mirror_idemp sb t : mirror sb (mirror sb t) = mirror sb t.
Proof.
  unfold mirror. destruct sb as [c|]; [|done].
  destruct (supabase_tables_checked t) eqn:Hc; [by rewrite Hc | done].
Qed.

Lemma mirror_set_user_profiles sb t m :
  mirror sb (set_user_profiles t m) = set_user_profiles (mirror sb t) m.
Proof.
  unfold mirror. destruct sb as [c|]; [|done]. simpl.
  by destruct (supabase_tables_checked t).
Qed.

(** X9. Learning from the same feedback a second time changes nothing: the
    tracker after two calls of [learn_from_feedback] with the same user,
    feedback and client is the tracker after the first call, whatever the two
    scores are. *)
Theorem learn_from_feedback_twice
    (sb : option Supabase) (u fb : string) (score score' : float) (t : UserBehaviorTracker) :
  learn_from_feedback sb u fb score' (learn_from_feedback sb u fb score t)
  = learn_from_feedback sb u fb score t.
Proof.
  set (t' := learn_from_feedback sb u fb score t).
  assert (∀ s x, learn_from_feedback sb u fb s x =
            mirror sb (set_user_profiles x
              (<[u := UserProfile.set_preferences (profile_of u (user_profiles x))
                   (learned_preferences (improvement_signals (Text.lower fb))
                      (UserProfile.preferences (profile_of u (user_profiles x))))]>
                 (user_profiles x)))) as Hlearn.
  { intros s x. unfold learn_from_feedback, get_user_profile. cbv beta iota zeta.
    cbn [user_profiles set_user_profiles].
    rewrite insert_ensure_profile, profile_of_ensure. by destruct x. }
  rewrite (Hlearn score' t').
  assert (user_profiles t' !! u = Some (profile_of u (user_profiles t'))) as Hlook.
  { unfold profile_of, t'. by rewrite learn_from_feedback_user_profiles, lookup_insert_eq. }
  assert (learned_preferences (improvement_signals (Text.lower fb))
            (UserProfile.preferences (profile_of u (user_profiles t')))
          = UserProfile.preferences (profile_of u (user_profiles t'))) as ->.
  { unfold t'. rewrite learn_from_feedback_user_profiles, profile_of_insert.
    rewrite decide_True by done. cbn [UserProfile.set_preferences UserProfile.preferences].
    apply learned_preferences_idemp. }
  rewrite set_preferences_same, insert_id by done.
  rewrite set_user_profiles_same. unfold t'. rewrite (Hlearn score t).
  apply mirror_idemp.
Qed.

(** ** Further properties: the log and the probe of the tables *)

Lemma run_all_cons step steps t :
  run_all (step :: steps) t = run_all steps (run step.1.1 step.1.2 step.2 t).
Proof. done. Qed.

(** X10. The log only grows, and only at its end: after any sequence of
    public calls the old log is a prefix of the new one, and the new one is
    longer by the number of [record_interaction] calls in the sequence. *)
Theorem log_append_only
    (steps : list (option Supabase * Z * op)) (t : UserBehaviorTracker) :
  interactions t `prefix_of` interactions (run_all steps t)
  ∧ length (interactions (run_all steps t))
    = (length (interactions t)
       + length (filter (fun step => is_record step.2 = true) steps))%nat.
Proof.
  revert t. induction steps as [|[[sb now] o] steps IH]; intros t.
  - split; [done | simpl; lia].
  - rewrite run_all_cons. cbn [fst snd].
    destruct (IH (run sb now o t)) as [Hpre Hlen].
    rewrite filter_cons. cbn [snd].
    pose proof (run_interactions sb now o t) as Hrun.
    split.
    + etrans; [|exact Hpre]. rewrite Hrun.
      destruct o; try done. by apply prefix_app_r.
    + rewrite Hlen, Hrun. destruct o; simpl; rewrite ?length_app; simpl; lia.
Qed.

Lemma mirror_flags sb t :
  flags (mirror sb t) =
  match sb with
  | Some c =>
      if supabase_tables_checked t then flags t
      else (true, table_present (probe_user_interactions c),
            table_present (probe_user_learning c))
  | None => flags t
  end.
Proof.
  unfold mirror. destruct sb as [c|]; [|done].
  by destruct (supabase_tables_checked t).
Qed.

Lemma detect_flags u i t : flags (_detect_off_track u i t).1 = flags t.
Proof. rewrite detect_off_track_eq. by destruct (off_track i). Qed.

Lemma run_flags sb now o t :
  flags (run sb now o t) = if writes_through o then flags (mirror sb t) else flags t.
Proof.
  destruct o; cbn [run writes_through].
  - unfold record_interaction. rewrite !mirror_flags.
    assert (∀ x, supabase_tables_checked x = (flags x).1.1) as Hc by done.
    rewrite Hc, detect_flags. by destruct sb.
  - done.
  - by rewrite analyze_fst.
  - by rewrite personalize_fst.
  - unfold learn_from_feedback, get_user_profile. cbv beta iota zeta.
    by rewrite !mirror_flags.
  - done.
Qed.

(** X11. The probe of the Supabase tables is made once: when the tracker has
    checked the tables, no sequence of public calls, with whatever clients,
    changes the three fields that hold the outcome. *)
Theorem probe_outcome_is_kept
    (steps : list (option Supabase * Z * op)) (t : UserBehaviorTracker) :
  supabase_tables_checked t = true →
  flags (run_all steps t) = flags t.
Proof.
  revert t. induction steps as [|[[sb now] o] steps IH]; intros t Hchecked; [done|].
  rewrite run_all_cons. cbn [fst snd].
  assert (flags (run sb now o t) = flags t) as Hstep.
  { rewrite run_flags, mirror_flags, Hchecked. by destruct (writes_through o), sb. }
  rewrite IH; [done|]. by injection Hstep as -> _ _.
Qed.

(** X12. A call probes the tables only when it writes through
    ([record_interaction] or [learn_from_feedback]), a client is configured
    and the tables were not checked before; the tracker then holds, for each
    table, that it is present unless the probe said it is missing.  Without
    a client, and in the calls that only read, the three fields stay. *)
Theorem probe_on_first_write
    (sb : option Supabase) (now : Z) (o : op) (t : UserBehaviorTracker) :
  (sb = None → flags (run sb now o t) = flags t)
  ∧ (writes_through o = false → flags (run sb now o t) = flags t)
  ∧ (∀ c, sb = Some c → writes_through o = true → supabase_tables_checked t = false →
       flags (run sb now o t)
       = (true,
          match probe_user_interactions c with ProbeTableMissing => false | _ => true end,
          match probe_user_learning c with ProbeTableMissing => false | _ => true end)).
Proof.
  rewrite run_flags, mirror_flags. repeat split.
  - intros ->. by destruct (writes_through o).
  - by intros ->.
  - intros c -> -> ->. unfold table_present.
    by destruct (probe_user_interactions c), (probe_user_learning c).
Qed.

(** ** Further properties: the report *)

(** X13. The report ends in exactly one of three ways, told apart by the
    log alone: the no-data answer exactly for the empty log, a
    [ZeroDivisionError] exactly for a non-empty log without any score, and a
    metrics record exactly when some record has a score. *)
Theorem report_outcomes (now : Z) (t : UserBehaviorTracker) :
  (get_reliability_metrics now t = Return (NoData "No interactions recorded")
     ↔ interactions t = [])
  ∧ (get_reliability_metrics now t = Raise ZeroDivisionError
     ↔ interactions t ≠ [] ∧ scored (interactions t) = [])
  ∧ ((∃ m, get_reliability_metrics now t = Return (Measured m))
     ↔ scored (interactions t) ≠ []).
Proof.
  destruct (get_reliability_metrics_cases now t) as (Hempty & Hraise & Hret).
  destruct (interactions t) as [|i l] eqn:Hl.
  - rewrite Hempty by done. repeat split; try done.
    + by intros [? _].
    + by intros [m Hm].
  - destruct (scored (i :: l)) as [|s ss] eqn:Hs.
    + rewrite Hraise by done. repeat split; try done. by intros [m Hm].
    + rewrite Hret by done. repeat split; try done.
      * by intros [_ ?].
      * intros _. by eexists.
Qed.

Lemma total_count_tally m i : total_count (tally m i) = total_count m + 1.
Proof.
  unfold total_count, tally.
  assert (∀ (z1 z2 : AgentPerf) (y : Z),
            count z1 + (count z2 + y) = count z2 + (count z1 + y)) as Hcomm
    by (intros; lia).
  destruct (m !! agent_name i) as [perf|] eqn:Hperf; simpl.
  - rewrite <- insert_delete_eq.
    rewrite map_fold_insert_L; [|intros; apply Hcomm | apply lookup_delete_eq].
    rewrite <- (insert_id m (agent_name i) perf Hperf) at 2.
    rewrite <- insert_delete_eq.
    rewrite (map_fold_insert_L _ _ _ perf);
      [|intros; apply Hcomm | apply lookup_delete_eq].
    simpl. lia.
  - rewrite map_fold_insert_L; [|intros; apply Hcomm | done]. simpl. lia.
Qed.

Lemma total_count_foldl_tally l m :
  total_count (foldl tally m l) = total_count m + len l.
Proof.
  revert m. induction l as [|i l IH]; intros m; unfold len; simpl; [lia|].
  rewrite IH, total_count_tally. unfold len. lia.
Qed.

Lemma count_average perf : count (average perf) = count perf.
Proof. unfold average. by destruct (satisfaction_scores perf). Qed.

Lemma total_count_average m : total_count (average <$> m) = total_count m.
Proof.
  unfold total_count.
  assert (∀ (z1 z2 : AgentPerf) (y : Z),
            count z1 + (count z2 + y) = count z2 + (count z1 + y)) as Hcomm
    by (intros; lia).
  induction m as [|k perf m Hk IH] using map_ind.
  - by rewrite fmap_empty.
  - rewrite fmap_insert.
    rewrite !map_fold_insert_L;
      [|intros; apply Hcomm | done | intros; apply Hcomm | by rewrite lookup_fmap, Hk].
    by rewrite IH, count_average.
Qed.

(** X14. In every report the per-agent interaction counts add up to
    [total_interactions]: each record is counted under exactly one agent. *)
Theorem agent_counts_add_up (now : Z) (t : UserBehaviorTracker) (m : Metrics) :
  get_reliability_metrics now t = Return (Measured m) →
  total_count (agent_performance m) = total_interactions m.
Proof.
  intros Hm.
  assert (scored (interactions t) ≠ []) as Hscored.
  { destruct (get_reliability_metrics_cases now t) as (Hempty & Hraise & _).
    intros Hnone. destruct (interactions t) as [|i l] eqn:Hl.
    - by rewrite Hempty in Hm.
    - by rewrite Hraise in Hm. }
  destruct (get_reliability_metrics_cases now t) as (_ & _ & Hret).
  rewrite Hret in Hm by done. injection Hm as <-. simpl.
  unfold agent_performance_of.
  rewrite total_count_average, total_count_foldl_tally.
  unfold total_count. by rewrite map_fold_empty.
Qed.

(** The report reads the log, the number of profiles and the number of
    off-track counters, and nothing else of the tracker. *)
Lemma report_reads t t' now :
  interactions t' = interactions t →
  size (user_profiles t') = size (user_profiles t) →
  off_track_patterns t' = off_track_patterns t →
  get_reliability_metrics now t' = get_reliability_metrics now t.
Proof.
  intros Hlog Hsize Hoff. unfold get_reliability_metrics.
  rewrite Hlog, Hsize.
  assert (off_track_rate_of t' = off_track_rate_of t) as ->; [|done].
  unfold off_track_rate_of. rewrite Hoff, Hsize.
  destruct (decide (user_profiles t = ∅)) as [He|Hne].
  - rewrite decide_True; [done|]. apply map_size_empty_iff.
    rewrite Hsize. by apply map_size_empty_iff.
  - rewrite decide_False; [done|]. apply map_size_non_empty_iff.
    rewrite Hsize. by apply map_size_non_empty_iff.
Qed.

(** X16. Feedback learned for a user who has a profile does not show in the
    report: the score given to [learn_from_feedback] enters neither the
    average nor any per-agent figure, and the report after the call is the
    report before it. *)
Theorem learning_keeps_report
    (sb : option Supabase) (now : Z) (u fb : string) (score : float)
    (t : UserBehaviorTracker) :
  is_Some (user_profiles t !! u) →
  get_reliability_metrics now (learn_from_feedback sb u fb score t)
  = get_reliability_metrics now t.
Proof.
  intros Hknown. apply report_reads.
  - apply learn_from_feedback_interactions.
  - rewrite learn_from_feedback_user_profiles. by apply map_size_insert_Some.
  - apply learn_from_feedback_off_track_patterns.
Qed.

(** X17. A profile created by a mere lookup counts as a user: when the
    report is a metrics record and [u] has no profile, the report after
    [get_user_profile u] (or after style inference or personalisation for
    [u]) has [unique_users] larger by one, with the same total and the same
    average satisfaction. *)
Theorem lookup_adds_unique_user
    (now now' : Z) (u base : string) (t : UserBehaviorTracker) (m : Metrics) :
  user_profiles t !! u = None →
  get_reliability_metrics now t = Return (Measured m) →
  ∀ t', t' = (get_user_profile u t).1
        ∨ t' = (analyze_response_style_preference now' u t).1
        ∨ t' = (get_personalized_prompt_adjustments now' u base t).1 →
    ∃ m', get_reliability_metrics now t' = Return (Measured m')
      ∧ unique_users m' = unique_users m + 1
      ∧ total_interactions m' = total_interactions m
      ∧ average_satisfaction m' = average_satisfaction m
      ∧ agent_performance m' = agent_performance m.
Proof.
  intros Hnone Hm t' Ht'.
  assert (t' = (get_user_profile u t).1) as ->.
  { destruct Ht' as [-> | [-> | ->]]; [done | apply analyze_fst | apply personalize_fst]. }
  assert (scored (interactions t) ≠ []) as Hscored.
  { destruct (get_reliability_metrics_cases now t) as (Hempty & Hraise & _).
    intros Hno. destruct (interactions t) as [|i l] eqn:Hl.
    - by rewrite Hempty in Hm.
    - by rewrite Hraise in Hm. }
  destruct (get_reliability_metrics_cases now t) as (_ & _ & Hret).
  destruct (get_reliability_metrics_cases now (get_user_profile u t).1) as (_ & _ & Hret').
  rewrite Hret in Hm by done. injection Hm as <-.
  eexists. split; [by apply Hret'|].
  cbn [unique_users total_interactions average_satisfaction agent_performance
       get_user_profile fst interactions user_profiles set_user_profiles].
  repeat split. unfold ensure_profile. rewrite Hnone.
  rewrite map_size_insert_None by done. lia.
Qed.

(** ** The further properties at concrete trackers *)

Lemma profile_history_is_log_witness :
  reachable two_users
  ∧ user_profiles two_users !! "u" = Some (profile_of "u" (user_profiles two_users))
  ∧ UserProfile.satisfaction_history (profile_of "u" (user_profiles two_users))
    = scored (records_of "u" (interactions two_users)).
Proof.
  assert (reachable two_users) as Hreach
    by exact (reachable_run _ _ _ _ (reachable_run _ _ _ _ reachable_init)).
  assert (user_profiles two_users !! "u"
          = Some (profile_of "u" (user_profiles two_users))) as Hp
    by (vm_compute; reflexivity).
  split; [exact Hreach|]. split; [exact Hp|].
  exact (proj1 (profile_history_is_log two_users Hreach "u" _ Hp)).
Defined.

Lemma profile_fixed_fields_witness :
  reachable two_users
  ∧ user_profiles two_users !! "v" = Some (profile_of "v" (user_profiles two_users))
  ∧ UserProfile.user_id (profile_of "v" (user_profiles two_users)) = "v".
Proof.
  assert (reachable two_users) as Hreach
    by exact (reachable_run _ _ _ _ (reachable_run _ _ _ _ reachable_init)).
  assert (user_profiles two_users !! "v"
          = Some (profile_of "v" (user_profiles two_users))) as Hp
    by (vm_compute; reflexivity).
  split; [exact Hreach|]. split; [exact Hp|].
  exact (proj1 (profile_fixed_fields two_users Hreach "v" _ Hp)).
Defined.

Lemma off_track_counter_counts_triggers_witness :
  reachable two_users
  ∧ off_count "v" two_users = len (triggering (records_of "v" (interactions two_users))).
Proof.
  assert (reachable two_users) as Hreach
    by exact (reachable_run _ _ _ _ (reachable_run _ _ _ _ reachable_init)).
  split; [exact Hreach|].
  exact (proj1 (off_track_counter_counts_triggers two_users Hreach "v")).
Defined.

Lemma preferences_only_learned_witness :
  reachable learned
  ∧ user_profiles learned !! "u" = Some (profile_of "u" (user_profiles learned))
  ∧ UserProfile.preferences (profile_of "u" (user_profiles learned)) !! "tone"
    = Some "more_professional"
  ∧ learnable "tone" "more_professional".
Proof.
  assert (reachable learned) as Hreach
    by exact (reachable_run _ _ _ _ (reachable_run _ _ _ _ reachable_init)).
  assert (user_profiles learned !! "u"
          = Some (profile_of "u" (user_profiles learned))) as Hp
    by (vm_compute; reflexivity).
  assert (UserProfile.preferences (profile_of "u" (user_profiles learned)) !! "tone"
          = Some "more_professional") as Hk
    by (vm_compute; reflexivity).
  split; [exact Hreach|]. split; [exact Hp|]. split; [exact Hk|].
  exact (preferences_only_learned learned Hreach "u" _ "tone" "more_professional" Hp Hk).
Defined.

Lemma logged_users_have_profiles_witness :
  reachable two_users ∧ user_profiles two_users ≠ ∅.
Proof.
  assert (reachable two_users) as Hreach
    by exact (reachable_run _ _ _ _ (reachable_run _ _ _ _ reachable_init)).
  split; [exact Hreach|].
  apply (proj2 (logged_users_have_profiles two_users Hreach)).
  vm_compute. discriminate.
Defined.

Lemma prompt_depends_on_own_records_witness :
  reachable scored_once ∧ reachable two_users
  ∧ records_of "u" (interactions scored_once) = records_of "u" (interactions two_users)
  ∧ (get_personalized_prompt_adjustments 7 "u" "base" scored_once).2
    = (get_personalized_prompt_adjustments 7 "u" "base" two_users).2.
Proof.
  assert (reachable scored_once) as H1 by exact (reachable_run _ _ _ _ reachable_init).
  assert (reachable two_users) as H2
    by exact (reachable_run _ _ _ _ (reachable_run _ _ _ _ reachable_init)).
  assert (records_of "u" (interactions scored_once)
          = records_of "u" (interactions two_users)) as Hrec
    by (vm_compute; reflexivity).
  split; [exact H1|]. split; [exact H2|]. split; [exact Hrec|].
  exact (proj2 (prompt_depends_on_own_records 7 "u" "base" _ _ H1 H2 Hrec)).
Defined.

Lemma stale_history_is_balanced_witness :
  (∀ i, i ∈ interactions three_short → user_id i = "u" →
        seven_days ≤ seven_days - timestamp i)
  ∧ (analyze_response_style_preference seven_days "u" three_short).2 = "balanced"
  ∧ (analyze_response_style_preference (seven_days - 1) "u" three_short).2 = "concise".
Proof.
  assert (∀ i, i ∈ interactions three_short → user_id i = "u" →
               seven_days ≤ seven_days - timestamp i) as Hold.
  { intros i Hi _. apply list_elem_of_In in Hi. vm_compute in Hi.
    destruct Hi as [<- | [<- | [<- | []]]]; vm_compute; discriminate. }
  split; [exact Hold|].
  split; [exact (stale_history_is_balanced seven_days "u" three_short Hold)|].
  reflexivity.
Defined.

Lemma reads_keep_tracker_witness :
  is_Some (user_profiles scored_once !! "u")
  ∧ (get_personalized_prompt_adjustments 7 "u" "base" scored_once).1 = scored_once.
Proof.
  assert (is_Some (user_profiles scored_once !! "u")) as Hknown
    by (vm_compute; eexists; reflexivity).
  split; [exact Hknown|].
  exact (proj2 (proj2 (reads_keep_tracker 7 "u" "base" scored_once Hknown))).
Defined.

Lemma probe_outcome_is_kept_witness :
  supabase_tables_checked probed = true
  ∧ flags (run_all [(Some half_there, 3, LearnFromFeedback "u" "rude" 1%float);
                    (None, 4, GetReliabilityMetrics)] probed)
    = (true, true, false).
Proof.
  assert (supabase_tables_checked probed = true) as Hchecked by reflexivity.
  split; [exact Hchecked|].
  exact (probe_outcome_is_kept _ probed Hchecked).
Defined.

Lemma agent_counts_add_up_witness :
  ∃ m, get_reliability_metrics 7 two_users = Return (Measured m)
     ∧ total_count (agent_performance m) = total_interactions m.
Proof.
  assert (scored (interactions two_users) ≠ []) as Hscored by (vm_compute; discriminate).
  pose proof (proj2 (proj2 (get_reliability_metrics_cases 7 two_users)) Hscored) as Hm.
  eexists. split; [exact Hm|].
  exact (agent_counts_add_up 7 two_users _ Hm).
Defined.

Lemma learning_keeps_report_witness :
  is_Some (user_profiles scored_once !! "u")
  ∧ get_reliability_metrics 7 learned = get_reliability_metrics 7 scored_once.
Proof.
  assert (is_Some (user_profiles scored_once !! "u")) as Hknown
    by (vm_compute; eexists; reflexivity).
  split; [exact Hknown|].
  exact (learning_keeps_report None 7 "u" "Too long, and rude" 2%float
           scored_once Hknown).
Defined.

Lemma lookup_adds_unique_user_witness :
  user_profiles scored_once !! "w" = None
  ∧ ∃ m m', get_reliability_metrics 7 scored_once = Return (Measured m)
      ∧ get_reliability_metrics 7 (get_user_profile "w" scored_once).1
        = Return (Measured m')
      ∧ unique_users m' = unique_users m + 1.
Proof.
  assert (user_profiles scored_once !! "w" = None) as Hnone by reflexivity.
  assert (scored (interactions scored_once) ≠ []) as Hscored by (vm_compute; discriminate).
  pose proof (proj2 (proj2 (get_reliability_metrics_cases 7 scored_once)) Hscored) as Hm.
  split; [exact Hnone|].
  destruct (lookup_adds_unique_user 7 0 "w" "" scored_once _ Hnone Hm
              (get_user_profile "w" scored_once).1 (or_introl eq_refl))
    as (m' & Hm' & Huu & _).
  eexists. exists m'. split; [exact Hm|]. split; [exact Hm' | exact Huu].
Defined.
